(** * appreqonline: cross-referencing enrolment-exception requests

    A shallow embedding of the data pipeline of [appreqonline.py]
    (column normalisation, schema validation, key sanitisation, the inner
    join with the history, the derived metrics and the CSV export) and
    the properties of it that the specification states.

    Conventions of the embedding.
    - A Python [str] is a Rocq [string] holding its UTF-8 encoding.
      Substring search and lexicographic comparison on code points agree
      with the same operations on UTF-8 bytes.
    - A spreadsheet cell is a number with an integer value, a text, a
      missing value (NaN) or an infinite number.  No dtype is stored with
      a column: where pandas acts on the dtype, the embedding reads it
      off the cells, as [pd.read_excel] infers it.  A column that holds a
      text, or that has no rows, is a column of objects; a column with
      rows and no text is numeric, of floats when a cell is missing or
      infinite and of integers otherwise.  Numbers with a fractional
      part are not represented.
    - A [DataFrame] is a list of column labels and a list of rows; the
      frames of a run live in a store and are updated in place, as the
      Python objects are. *)

From Stdlib Require Import Ascii String QArith.
From stdpp Require Import gmap strings list fin_maps pretty sorting.

Open Scope string_scope.
Open Scope list_scope.

(** ** Python strings *)

Module Str.

Definition byte (n : nat) : ascii := ascii_of_nat n.

Definition code (c : ascii) : nat := nat_of_ascii c.

(** [str.lower] on one byte of the Basic Latin block. *)
Definition lower_ascii (c : ascii) : ascii :=
  if ((65 <=? code c) && (code c <=? 90))%nat then byte (code c + 32) else c.

(** The second byte of a two-byte sequence led by 0xC3 (U+00C0..U+00FF):
    U+00C0..U+00DE except the multiplication sign U+00D7 have a lower-case
    form 0x20 further. *)
Definition lower_latin1 (d : ascii) : ascii :=
  if ((128 <=? code d) && (code d <=? 158) && negb (code d =? 151))%nat
  then byte (code d + 32) else d.

(** [s.lower()]: the case mapping of Basic Latin and Latin-1 Supplement;
    other code points are left as they are. *)
Fixpoint lower (s : string) : string :=
  match s with
  | EmptyString => EmptyString
  | String c s' =>
      if (code c =? 195)%nat then
        match s' with
        | EmptyString => String c EmptyString
        | String d s'' => String c (String (lower_latin1 d) (lower s''))
        end
      else String (lower_ascii c) (lower s')
  end.

(** The UTF-8 encodings of the code points for which [str.isspace]
    holds. *)
Definition whitespace : list (list ascii) :=
  map (map byte)
    ([[9]; [10]; [11]; [12]; [13]; [28]; [29]; [30]; [31]; [32];
      [194; 133]; [194; 160]; [225; 154; 128]]
     ++ map (fun b => [226; 128; b]) (seq 128 11)
     ++ [[226; 128; 168]; [226; 128; 169]; [226; 128; 175];
         [226; 129; 159]; [227; 128; 128]]).

Fixpoint drop_prefix (p l : list ascii) : option (list ascii) :=
  match p, l with
  | [], _ => Some l
  | a :: p', b :: l' => if Ascii.eqb a b then drop_prefix p' l' else None
  | _ :: _, [] => None
  end.

Fixpoint drop_any (ps : list (list ascii)) (l : list ascii)
  : option (list ascii) :=
  match ps with
  | [] => None
  | p :: ps' =>
      match drop_prefix p l with
      | Some r => Some r
      | None => drop_any ps' l
      end
  end.

Fixpoint lstrip_bytes (fuel : nat) (ps : list (list ascii))
    (l : list ascii) : list ascii :=
  match fuel with
  | O => l
  | S fuel' =>
      match drop_any ps l with
      | Some r => lstrip_bytes fuel' ps r
      | None => l
      end
  end.

(** [s.strip()] *)
Definition strip (s : string) : string :=
  let l := list_ascii_of_string s in
  let l1 := lstrip_bytes (List.length l) whitespace l in
  let l2 := lstrip_bytes (List.length l1) (map (@rev ascii) whitespace)
              (rev l1) in
  string_of_list_ascii (rev l2).

(** [sub in s] *)
Fixpoint contains (sub s : string) : bool :=
  String.prefix sub s ||
  match s with
  | EmptyString => false
  | String _ s' => contains sub s'
  end.

(** [sep.join(ls)] *)
Definition join (sep : string) (ls : list string) : string :=
  String.concat sep ls.

Fixpoint drop (n : nat) (s : string) : string :=
  match n, s with
  | O, _ => s
  | S n', String _ s' => drop n' s'
  | S _, EmptyString => EmptyString
  end.

Fixpoint replace_go (fuel : nat) (old new s : string) : string :=
  match fuel with
  | O => s
  | S fuel' =>
      match s with
      | EmptyString => EmptyString
      | String c s' =>
          if String.prefix old s
          then new +:+ replace_go fuel' old new (drop (String.length old) s)
          else String c (replace_go fuel' old new s')
      end
  end.

(** [s.replace(old, new)] for a non-empty [old]. *)
Definition replace (old new s : string) : string :=
  replace_go (String.length s) old new s.

(** [x in names] *)
Definition mem (x : string) (names : list string) : bool :=
  existsb (String.eqb x) names.

End Str.


(** ** Tables *)

(** A cell of a frame: a number with an integer value, a text, a missing
    value, or an infinite number (as [pd.to_numeric] reads it in a
    text). *)
Inductive cell : Type :=
  | VInt (z : Z)
  | VStr (s : string)
  | VNaN
  | VInf (negative : bool).

Global Instance cell_eq_dec : EqDecision cell.
Proof. solve_decision. Defined.

(** [pd.DataFrame]: the column labels and the rows, each row holding one
    cell per column, in the order of the labels. *)
Record DataFrame : Type := mkDataFrame {
  columns : list string;
  rows : list (list cell)
}.

(** [len(df)] *)
Definition len (df : DataFrame) : nat := length (rows df).

(** [df.empty]: some axis has length zero. *)
Definition empty (df : DataFrame) : bool :=
  match columns df, rows df with
  | [], _ | _, [] => true
  | _, _ => false
  end.

(** Every row has one cell per column. *)
Definition rectangular (df : DataFrame) : Prop :=
  Forall (fun r => length r = length (columns df)) (rows df).

(** ** Exceptions and the store of frames *)

Inductive exn : Type :=
  | ValueError (msg : string)
  | KeyError (key : string)
  | TypeError (msg : string)
  | AttributeError (msg : string)
  | ZeroDivisionError
  | MergeError (msg : string).

Inductive result (A : Type) : Type :=
  | Ok (a : A)
  | Raise (e : exn).
Arguments Ok {A} a.
Arguments Raise {A} e.

Definition loc : Type := positive.

(** The state of a run: the frames that exist, each under its reference,
    and the warnings shown so far ([st.warning]). *)
Record state : Type := mkState {
  frames : gmap loc DataFrame;
  warnings : list string
}.

Definition M (A : Type) : Type := state -> result (A * state).

Global Instance M_ret : MRet M := fun A a st => Ok (a, st).

Global Instance M_bind : MBind M := fun A B f m st =>
  match m st with
  | Ok (a, st') => f a st'
  | Raise e => Raise e
  end.

Definition raise {A} (e : exn) : M A := fun _ => Raise e.

Definition lift {A} (r : result A) : M A := fun st =>
  match r with
  | Ok a => Ok (a, st)
  | Raise e => Raise e
  end.

(** Reading the frame a reference points to. *)
Definition deref (l : loc) : M DataFrame := fun st =>
  match frames st !! l with
  | Some df => Ok (df, st)
  | None => Raise (KeyError "dangling reference")
  end.

Definition with_frame (l : loc) (df : DataFrame) (st : state) : state :=
  mkState (<[l := df]> (frames st)) (warnings st).

Definition with_warnings (msgs : list string) (st : state) : state :=
  mkState (frames st) (warnings st ++ msgs).

(** Updating the frame behind a reference, seen by every holder of it. *)
Definition assign (l : loc) (df : DataFrame) : M unit := fun st =>
  Ok (tt, with_frame l df st).

(** A new frame object. *)
Definition alloc (df : DataFrame) : M loc := fun st =>
  let l := fresh (dom (frames st)) in
  Ok (l, with_frame l df st).

(** [st.warning(msg)] *)
Definition warning (msg : string) : M unit := fun st =>
  Ok (tt, with_warnings [msg] st).

(** ** Column access *)

(** Position of the first column labelled [name]. *)
Fixpoint index_of (name : string) (cols : list string) : option nat :=
  match cols with
  | [] => None
  | c :: cols' =>
      if String.eqb c name then Some O
      else S <$> index_of name cols'
  end.

(** The position [df[name]] selects: a [KeyError] when there is no such
    label; with a repeated label pandas selects a sub-frame, on which the
    operations applied below fail. *)
Definition get_loc (name : string) (cols : list string) : result nat :=
  match index_of name cols with
  | None => Raise (KeyError name)
  | Some i =>
      if decide (count_occ string_dec cols name = 1)
      then Ok i
      else Raise (TypeError ("label not unique: " +:+ name))
  end.

(** The cell of a row at a position; a short row reads as missing. *)
Definition cell_at (i : nat) (r : list cell) : cell := default VNaN (r !! i).

(** [df[name]] as the list of its values. *)
Definition get_column (name : string) (df : DataFrame)
  : result (list cell) :=
  match get_loc name (columns df) with
  | Ok i => Ok (map (cell_at i) (rows df))
  | Raise e => Raise e
  end.

(** Writing [vals] down position [i], row by row. *)
Fixpoint write_at (i : nat) (vals : list cell) (rs : list (list cell))
  : list (list cell) :=
  match rs, vals with
  | r :: rs', v :: vals' => <[i := v]> r :: write_at i vals' rs'
  | _, _ => rs
  end.

(** Adding one more cell at the end of each row. *)
Fixpoint write_new (vals : list cell) (rs : list (list cell))
  : list (list cell) :=
  match rs, vals with
  | r :: rs', v :: vals' => (r ++ [v]) :: write_new vals' rs'
  | _, _ => rs
  end.

(** [df[name] = vals]: overwrites the column when the label exists and
    appends a new last column otherwise. *)
Definition set_column (name : string) (vals : list cell) (df : DataFrame)
  : DataFrame :=
  match index_of name (columns df) with
  | Some i => mkDataFrame (columns df) (write_at i vals (rows df))
  | None => mkDataFrame (columns df ++ [name]) (write_new vals (rows df))
  end.

(** [df.rename(columns=mapping)]: labels absent from the mapping stay. *)
Definition rename (mapping : list (string * string)) (df : DataFrame)
  : DataFrame :=
  mkDataFrame
    (map (fun c =>
            match List.find (fun kv => String.eqb (fst kv) c) mapping with
            | Some kv => snd kv
            | None => c
            end) (columns df))
    (rows df).

Definition getitem (df : loc) (name : string) : M (list cell) :=
  d ← deref df; lift (get_column name d).

Definition setitem (df : loc) (name : string) (vals : list cell) : M unit :=
  d ← deref df; assign df (set_column name vals d).

Definition rename_inplace (df : loc) (mapping : list (string * string))
  : M unit :=
  d ← deref df; assign df (rename mapping d).

(** ** Column Normalizer *)

Definition nusp_keywords : list string :=
  ["nusp"; "numero usp"; "número usp"; "n° usp"].

(** The test of the loop body of [find_and_rename_nusp_column]. *)
Definition is_nusp_column (normalized_possible_names : list string)
    (col : string) : bool :=
  let normalized_col := Str.strip (Str.lower col) in
  Str.mem normalized_col normalized_possible_names
  || existsb (fun keyword => Str.contains keyword normalized_col)
       nusp_keywords.

(** The loop over [df.columns]: the first label that passes the test. *)
Fixpoint first_nusp_column (normalized_possible_names cols : list string)
  : option string :=
  match cols with
  | [] => None
  | col :: cols' =>
      if is_nusp_column normalized_possible_names col then Some col
      else first_nusp_column normalized_possible_names cols'
  end.

Definition nusp_not_found : string :=
  "Coluna de Número USP não encontrada. Colunas disponíveis: ".

Definition find_and_rename_nusp_column (df : loc)
    (possible_names : list string) : M loc :=
  d ← deref df;
  let normalized_possible_names :=
    map (fun name => Str.strip (Str.lower name)) possible_names in
  match first_nusp_column normalized_possible_names (columns d) with
  | Some col => rename_inplace df [(col, "nusp")];; mret df
  | None => raise (ValueError (nusp_not_found +:+ Str.join ", " (columns d)))
  end.

(** The matching of labels in the words of the specification: a label
    matches a synonym when the two are the same text once the case of
    the letters and the blanks around the text are set aside; it holds a
    keyword when one of the fixed keywords occurs in it, read the same
    way. *)
Definition same_label (a b : string) : Prop :=
  Str.strip (Str.lower a) = Str.strip (Str.lower b).

Definition matches_synonym (synonyms : list string) (col : string) : Prop :=
  exists name, In name synonyms /\ same_label col name.

Definition holds_keyword (col : string) : Prop :=
  exists keyword,
    In keyword nusp_keywords
    /\ Str.contains keyword (Str.strip (Str.lower col)) = true.

Definition recognised (synonyms : list string) (col : string) : Prop :=
  matches_synonym synonyms col \/ holds_keyword col.

(** ** Schema Validator *)

Definition nl : string := String (Str.byte 10) EmptyString.

Definition renamed_consolidado_cols : list string :=
  ["disciplina_historico"; "Ano_historico"; "Semestre_historico";
   "problema_historico"; "parecer_historico"].

Definition missing_from (required cols : list string) : list string :=
  List.filter (fun col => negb (Str.mem col cols)) required.

Definition validate_dataframes (df_consolidado df_requerimentos : loc)
  : M unit :=
  dc ← deref df_consolidado;
  dr ← deref df_requerimentos;
  let required_cols_consolidado := ["nusp"] ++ renamed_consolidado_cols in
  let required_cols_requerimentos := ["nusp"; "Nome completo"] in
  let missing_consolidado :=
    missing_from required_cols_consolidado (columns dc) in
  let missing_requerimentos :=
    missing_from required_cols_requerimentos (columns dr) in
  let errors :=
    (match missing_consolidado with
     | [] => []
     | _ => ["Arquivo consolidado: colunas faltando - "
             +:+ Str.join ", "
                   (map (Str.replace "_historico" "") missing_consolidado)]
     end)
    ++
    (match missing_requerimentos with
     | [] => []
     | _ => ["Arquivo requerimentos: colunas faltando - "
             +:+ Str.join ", " missing_requerimentos]
     end) in
  match errors with
  | [] => mret tt
  | _ => raise (ValueError (Str.join nl errors))
  end.

(** ** Key Sanitizer *)

Definition isna (c : cell) : bool :=
  match c with
  | VNaN => true
  | _ => false
  end.

(** [df.dropna(subset=[name])] *)
Definition dropna_subset (name : string) (df : DataFrame)
  : result DataFrame :=
  match get_loc name (columns df) with
  | Ok i =>
      Ok (mkDataFrame (columns df)
            (List.filter (fun r => negb (isna (cell_at i r))) (rows df)))
  | Raise e => Raise e
  end.

Definition dropna_inplace (df : loc) (name : string) : M unit :=
  d ← deref df; d' ← lift (dropna_subset name d); assign df d'.

(** [Series.astype(int)] on one value. *)
Definition astype_int (c : cell) : result cell :=
  match c with
  | VInt z => Ok (VInt z)
  | VStr s => Raise (ValueError ("invalid literal for int(): " +:+ s))
  | VNaN | VInf _ =>
      Raise (ValueError
               "Cannot convert non-finite values (NA or inf) to integer")
  end.

Fixpoint map_result {A B} (f : A -> result B) (l : list A)
  : result (list B) :=
  match l with
  | [] => Ok []
  | x :: l' =>
      match f x with
      | Raise e => Raise e
      | Ok y =>
          match map_result f l' with
          | Raise e => Raise e
          | Ok ys => Ok (y :: ys)
          end
      end
  end.

(** [for x in l: body(x)] *)
Fixpoint for_each {A} (body : A -> M unit) (l : list A) : M unit :=
  match l with
  | [] => mret tt
  | x :: l' => body x;; for_each body l'
  end.

(** What [pd.to_numeric] reads in a text. *)
Inductive number : Type :=
  | Finite (z : Z)
  | Infinity (negative : bool).

Definition is_inf (c : cell) : bool :=
  match c with
  | VInf _ => true
  | _ => false
  end.

Section KeySanitizer.

(** The number pandas reads in a text cell, if it reads one: a finite
    number, given as the integer that the cast at the end of the loop
    body makes of it, or an infinity (in texts such as [inf] or
    [-Infinity]); the parser belongs to the library. *)
Variable parse_number : string -> option number.

(** [pd.to_numeric(..., errors='coerce')] on one value. *)
Definition to_numeric_coerce (c : cell) : cell :=
  match c with
  | VInt z => VInt z
  | VStr s =>
      match parse_number s with
      | Some (Finite z) => VInt z
      | Some (Infinity negative) => VInf negative
      | None => VNaN
      end
  | VNaN => VNaN
  | VInf negative => VInf negative
  end.

Definition removed_warning (nulos_antes : nat) (nome : string) : string :=
  "⚠️ Removidos " +:+ pretty nulos_antes
  +:+ " registros com NUSP inválido do arquivo " +:+ nome.

(** The body of the sanitising loop of [run_app], for one frame; the
    result is [nulos_antes]. *)
Definition sanitize_nusp (df : loc) (nome : string) : M nat :=
  col ← getitem df "nusp";
  setitem df "nusp" (map to_numeric_coerce col);;
  col ← getitem df "nusp";
  let nulos_antes := length (List.filter isna col) in
  dropna_inplace df "nusp";;
  (if (0 <? nulos_antes)%nat
   then warning (removed_warning nulos_antes nome)
   else mret tt);;
  col ← getitem df "nusp";
  ints ← lift (map_result astype_int col);
  setitem df "nusp" ints;;
  mret nulos_antes.

(** What the specification asks of the loop body, for a frame whose key
    is at position [i]: the key as coerced, the rows that are dropped
    (key not coercible to a number) and the frame that remains (the other
    rows, in order, each with its key coerced and its other cells as they
    were). *)
Definition coerced_key (i : nat) (r : list cell) : cell :=
  to_numeric_coerce (cell_at i r).

Definition dropped_rows (i : nat) (df : DataFrame) : list (list cell) :=
  List.filter (fun r => isna (coerced_key i r)) (rows df).

Definition sanitized_frame (i : nat) (df : DataFrame) : DataFrame :=
  mkDataFrame (columns df)
    (map (fun r => <[i := coerced_key i r]> r)
       (List.filter (fun r => negb (isna (coerced_key i r))) (rows df))).

Definition sanitize_warnings (i : nat) (df : DataFrame) (nome : string)
  : list string :=
  match length (dropped_rows i df) with
  | O => []
  | n => [removed_warning n nome]
  end.

(** Some key of the frame is read as an infinite number. *)
Definition has_infinite_key (i : nat) (df : DataFrame) : bool :=
  existsb (fun r => is_inf (coerced_key i r)) (rows df).

End KeySanitizer.

(** ** History Joiner *)

(** [Index.duplicated()]: marks the labels already met further left. *)
Fixpoint duplicated_go (seen cols : list string) : list bool :=
  match cols with
  | [] => []
  | c :: cols' => Str.mem c seen :: duplicated_go (c :: seen) cols'
  end.

Definition duplicated (cols : list string) : list bool :=
  duplicated_go [] cols.

(** The labels that the suffixes of a merge make ambiguous; pandas
    refuses the merge when there is one. *)
Definition suffix_clashes (left right : list string) : list string :=
  let to_rename c := Str.mem c left && Str.mem c right in
  let llabels := map (fun c => if to_rename c then c +:+ "_x" else c) left in
  let rlabels :=
    map (fun c => if to_rename c then c +:+ "_y" else c) right in
  let fresh_dups old new :=
    map fst
      (List.filter (fun x => fst (snd x) && negb (snd (snd x)))
         (zip new (zip (duplicated new) (duplicated old)))) in
  fresh_dups left llabels
  ++ fresh_dups right rlabels
  ++ List.filter
       (fun c => Str.mem c right && negb (to_rename c)) llabels
  ++ List.filter
       (fun c => Str.mem c left && negb (to_rename c)) rlabels.

(** The position of the join key: the label has to exist and to be
    unique. *)
Definition key_loc (on : string) (cols : list string) : result nat :=
  match index_of on cols with
  | None => Raise (KeyError on)
  | Some i =>
      if decide (count_occ string_dec cols on = 1)
      then Ok i
      else Raise (ValueError ("The column label is not unique: " +:+ on))
  end.

(** The rows of the inner join: each left row with each right row of the
    same key, the key cell of the right row left out. *)
Definition join_rows (li ri : nat) (lrows rrows : list (list cell))
  : list (list cell) :=
  flat_map
    (fun lr =>
       map (fun rr => lr ++ delete ri rr)
         (List.filter
            (fun rr => bool_decide (cell_at li lr = cell_at ri rr)) rrows))
    lrows.

(** [left.merge(right, on=on, how="inner")] *)
Definition merge_inner (left right : DataFrame) (on : string)
  : result DataFrame :=
  match key_loc on (columns left), key_loc on (columns right) with
  | Raise e, _ => Raise e
  | _, Raise e => Raise e
  | Ok li, Ok ri =>
      let lcols := columns left in
      let rcols := delete ri (columns right) in
      let to_rename c := Str.mem c lcols && Str.mem c rcols in
      match suffix_clashes lcols rcols with
      | _ :: _ =>
          Raise (MergeError "suffixes cause duplicate columns")
      | [] =>
          Ok (mkDataFrame
                (map (fun c => if to_rename c then c +:+ "_x" else c) lcols
                 ++ map (fun c => if to_rename c then c +:+ "_y" else c)
                      rcols)
                (join_rows li ri (rows left) (rows right)))
      end
  end.

(** How many of the rows carry the key [k] at position [i]. *)
Definition key_count (i : nat) (k : cell) (rs : list (list cell)) : nat :=
  length (List.filter (fun r => bool_decide (cell_at i r = k)) rs).

Definition merge (left right : loc) (on : string) : M loc :=
  l ← deref left;
  r ← deref right;
  j ← lift (merge_inner l r on);
  alloc j.

(** ** Metrics Calculator *)

(** A value of the [metrics] dictionary: a number, or a series of counts
    under its index labels. *)
Inductive metric : Type :=
  | MNum (q : Q)
  | MSeries (s : list (cell * nat)).

Definition is_text (c : cell) : bool :=
  match c with
  | VStr _ => true
  | _ => false
  end.

(** [Series.str]: the accessor is there on a column of objects and
    refused ([AttributeError]) on a numeric one.  The type of the column
    is read off its cells: with a text, or without rows, it is a column
    of objects; with rows and no text it is numeric. *)
Definition str_accessor (col : list cell) : result (list cell) :=
  match col with
  | [] => Ok []
  | _ =>
      if existsb is_text col then Ok col
      else Raise (AttributeError
                    "Can only use .str accessor with string values!")
  end.

(** [.lower()] under the accessor, on one value of a column that has
    passed the check of [str_accessor]: only texts have a lower-case
    form, the other values give a missing value. *)
Definition str_lower (c : cell) : cell :=
  match c with
  | VStr s => VStr (Str.lower s)
  | _ => VNaN
  end.

(** [Series.str.contains(p1|p2|..., na=False)] on one value. *)
Definition str_contains (pats : list string) (c : cell) : bool :=
  match c with
  | VStr s => existsb (fun p => Str.contains p s) pats
  | _ => false
  end.

(** [.sum()] of a boolean series. *)
Definition sum_true (l : list bool) : nat :=
  length (List.filter (fun b => b) l).

(** [str(x)] of one value of a column of objects or of integers. *)
Definition astype_str (c : cell) : string :=
  match c with
  | VInt z => pretty z
  | VStr s => s
  | VNaN => "nan"
  | VInf negative => if negative then "-inf" else "inf"
  end.

(** The column is held as floats: no text, and a missing or an infinite
    value among its cells. *)
Definition float_column (col : list cell) : bool :=
  negb (existsb is_text col) && existsb (fun c => isna c || is_inf c) col.

(** [str(x)] of one value of a column of floats: a number with an
    integer value is written with one decimal (below 10^16 in absolute
    value, where Python writes a float without an exponent). *)
Definition float_str (c : cell) : string :=
  match c with
  | VInt z => pretty z +:+ ".0"
  | _ => astype_str c
  end.

(** [Series.astype(str)] *)
Definition series_astype_str (col : list cell) : list string :=
  if float_column col then map float_str col else map astype_str col.

(** [Series.unique()]: the distinct values in the order of their first
    appearance. *)
Fixpoint unique_go (seen l : list cell) : list cell :=
  match l with
  | [] => []
  | x :: l' =>
      if bool_decide (x ∈ seen) then unique_go seen l'
      else x :: unique_go (x :: seen) l'
  end.

Definition unique (l : list cell) : list cell := unique_go [] l.

Definition occurrences (x : cell) (l : list cell) : nat :=
  length (List.filter (fun y => bool_decide (y = x)) l).

(** [Series.nunique()]: missing values do not count. *)
Definition nunique (l : list cell) : nat :=
  length (unique (List.filter (fun c => negb (isna c)) l)).

Definition count_ge (a b : cell * nat) : Prop := (snd b <= snd a)%nat.

Global Instance count_ge_dec : RelDecision count_ge.
Proof. intros a b. unfold count_ge. apply _. Defined.

(** [Series.value_counts()]: one entry per distinct value that is not
    missing, the most frequent first. *)
Definition value_counts (l : list cell) : list (cell * nat) :=
  let present := List.filter (fun c => negb (isna c)) l in
  merge_sort count_ge
    (map (fun x => (x, occurrences x present)) (unique present)).

(** The order of index labels of one kind; labels of different kinds do
    not compare in Python. *)
Definition label_le (a b : cell) : Prop :=
  match a, b with
  | VInt x, VInt y => (x <= y)%Z
  | VInf true, (VInt _ | VInf _) => True
  | VInf false, VInf false => True
  | VInf false, (VInt _ | VInf true) => False
  | VInt _, VInf true => False
  | VInt _, VInf false => True
  | (VInt _ | VInf _), (VStr _ | VNaN) => True
  | VStr _, (VInt _ | VInf _) => False
  | VStr x, VStr y => String.le x y
  | VStr _, VNaN => True
  | VNaN, VNaN => True
  | VNaN, _ => False
  end.

Global Instance label_le_dec : RelDecision label_le.
Proof.
  intros [x|x| |[]] [y|y| |[]]; simpl; apply _.
Defined.

Definition entry_le (a b : cell * nat) : Prop := label_le (fst a) (fst b).

Global Instance entry_le_dec : RelDecision entry_le.
Proof. intros a b. unfold entry_le. apply _. Defined.

Definition same_kind (a b : cell) : bool :=
  match a, b with
  | (VInt _ | VInf _), (VInt _ | VInf _)
  | VStr _, VStr _ | VNaN, VNaN => true
  | _, _ => false
  end.

(** [Series.sort_index()] *)
Definition sort_index (s : list (cell * nat)) : result (list (cell * nat)) :=
  match s with
  | [] => Ok []
  | (a, _) :: _ =>
      if forallb (fun e => same_kind a (fst e)) s
      then Ok (merge_sort entry_le s)
      else Raise (TypeError "'<' not supported between these index labels")
  end.

(** Python's [a / b] on two counts. *)
Definition true_div (a b : nat) : result Q :=
  match b with
  | O => Raise ZeroDivisionError
  | _ => Ok (inject_Z (Z.of_nat a) / inject_Z (Z.of_nat b))%Q
  end.

(** [aprovados / total_com_parecer * 100 if total_com_parecer > 0
    else 0] *)
Definition taxa (aprovados total_com_parecer : nat) : Q :=
  if (0 <? total_com_parecer)%nat
  then (inject_Z (Z.of_nat aprovados)
        / inject_Z (Z.of_nat total_com_parecer) * 100)%Q
  else 0%Q.

(** [pareceres.str.contains('aprovado', na=False).sum()] *)
Definition count_aprovados (pareceres : list cell) : nat :=
  sum_true (map (str_contains ["aprovado"]) pareceres).

(** [pareceres.str.contains('negado|indeferido', na=False).sum()] *)
Definition count_negados (pareceres : list cell) : nat :=
  sum_true (map (str_contains ["negado"; "indeferido"]) pareceres).

(** The label of a row in the column [periodo], from the texts of its
    year and of its term. *)
Definition periodo_label (ano semestre : string) : cell :=
  VStr (ano +:+ "/" +:+ semestre).

Definition calculate_additional_metrics (alunos_com_historico : loc)
  : M (gmap string metric) :=
  let metrics : gmap string metric := ∅ in
  d ← deref alunos_com_historico;
  if negb (empty d) then
    col ← getitem alunos_com_historico "parecer_historico";
    texts ← lift (str_accessor col);
    let pareceres := map str_lower texts in
    let aprovados := count_aprovados pareceres in
    let negados := count_negados pareceres in
    let total_com_parecer := (aprovados + negados)%nat in
    let metrics :=
      <["taxa_aprovacao" := MNum (taxa aprovados total_com_parecer)]>
        metrics in
    nusp ← getitem alunos_com_historico "nusp";
    media ← lift (true_div (len d) (nunique nusp));
    let metrics := <["media_pedidos_por_aluno" := MNum media]> metrics in
    disciplina ← getitem alunos_com_historico "disciplina_historico";
    let metrics :=
      <["top_disciplinas" := MSeries (take 5 (value_counts disciplina))]>
        metrics in
    if Str.mem "Ano_historico" (columns d)
       && Str.mem "Semestre_historico" (columns d)
    then
      ano ← getitem alunos_com_historico "Ano_historico";
      semestre ← getitem alunos_com_historico "Semestre_historico";
      setitem alunos_com_historico "periodo"
        (zip_with periodo_label (series_astype_str ano)
           (series_astype_str semestre));;
      periodo ← getitem alunos_com_historico "periodo";
      distribuicao ← lift (sort_index (value_counts periodo));
      mret (<["distribuicao_temporal" := MSeries distribuicao]> metrics)
    else mret metrics
  else mret metrics.

(** [metrics.get('taxa_aprovacao', 0)], as [run_app] displays it. *)
Definition taxa_aprovacao (metrics : gmap string metric) : metric :=
  default (MNum 0) (metrics !! "taxa_aprovacao").

(** The values down position [i]. *)
Definition column_values (i : nat) (d : DataFrame) : list cell :=
  map (cell_at i) (rows d).

(** The labels written to [periodo], from the year at position [ia] and
    the term at position [ib]. *)
Definition periodo_column (ia ib : nat) (d : DataFrame) : list cell :=
  zip_with periodo_label (series_astype_str (column_values ia d))
    (series_astype_str (column_values ib d)).

(** The dictionary once the rate, the mean and the top courses are in,
    with the decisions at [ip], the keys at [ik] and the courses at
    [ic]. *)
Definition first_metrics (ip ik ic : nat) (d : DataFrame)
  : gmap string metric :=
  let pareceres := map str_lower (column_values ip d) in
  <["top_disciplinas" :=
      MSeries (take 5 (value_counts (column_values ic d)))]>
    (<["media_pedidos_por_aluno" :=
         MNum (inject_Z (Z.of_nat (len d))
               / inject_Z (Z.of_nat (nunique (column_values ik d))))%Q]>
       (<["taxa_aprovacao" :=
            MNum (taxa (count_aprovados pareceres)
                    (count_aprovados pareceres + count_negados pareceres))]>
          ∅)).

(** A joined frame as the earlier steps hand it to the Metrics
    Calculator: distinct labels, full rows, the columns the validator
    asked for, and integer keys. *)
Record joined_table (d : DataFrame) : Prop := mkJoined {
  joined_labels : NoDup (columns d);
  joined_rows : rectangular d;
  joined_nusp : In "nusp" (columns d);
  joined_parecer : In "parecer_historico" (columns d);
  joined_disciplina : In "disciplina_historico" (columns d);
  joined_keys :
    forall i, index_of "nusp" (columns d) = Some i ->
              Forall (fun r => exists z, cell_at i r = VInt z) (rows d)
}.

(** The column [name] of the frame holds a text. *)
Definition has_text (name : string) (d : DataFrame) : bool :=
  match get_column name d with
  | Ok col => existsb is_text col
  | Raise _ => false
  end.

(** The same, as a test that runs. *)
Definition is_int (c : cell) : bool :=
  match c with
  | VInt _ => true
  | _ => false
  end.

Definition check_joined_table (d : DataFrame) : bool :=
  bool_decide (NoDup (columns d))
  && forallb (fun r => (length r =? length (columns d))%nat) (rows d)
  && Str.mem "nusp" (columns d)
  && Str.mem "parecer_historico" (columns d)
  && Str.mem "disciplina_historico" (columns d)
  && match index_of "nusp" (columns d) with
     | Some i => forallb (fun r => is_int (cell_at i r)) (rows d)
     | None => true
     end.

(** The approval rate in the words of the specification: a decision is
    approved when its text contains the positive keyword, rejected when
    it contains a negative keyword, both whatever the case of the
    letters; the rate is approved / (approved + rejected) * 100, and 0
    when that denominator is 0. *)
Definition contains_ignoring_case (keyword : string) (c : cell) : bool :=
  match c with
  | VStr s => Str.contains (Str.lower keyword) (Str.lower s)
  | _ => false
  end.

Definition approved (decisions : list cell) : nat :=
  length (List.filter (contains_ignoring_case "aprovado") decisions).

Definition rejected (decisions : list cell) : nat :=
  length
    (List.filter
       (fun c => contains_ignoring_case "negado" c
                 || contains_ignoring_case "indeferido" c)
       decisions).

(** The decisions that are classified at all, and those that are
    classified both ways. *)
Definition classified (decisions : list cell) : nat :=
  length
    (List.filter
       (fun c => contains_ignoring_case "aprovado" c
                 || (contains_ignoring_case "negado" c
                     || contains_ignoring_case "indeferido" c))
       decisions).

Definition classified_twice (decisions : list cell) : nat :=
  length
    (List.filter
       (fun c => contains_ignoring_case "aprovado" c
                 && (contains_ignoring_case "negado" c
                     || contains_ignoring_case "indeferido" c))
       decisions).


(** ** Report Exporter: delimited text *)












(** *** Reading the text back

    A reader of comma-separated text with quoted fields, against which
    the export is checked: inside quotes a comma or a line break belongs
    to the field and two quotes stand for one. *)











(** ** The processing steps of [run_app] *)

Definition consolidado_names : list string :=
  ["nusp"; "numero usp"; "número usp"; "n° usp"; "n usp"].

Definition requerimentos_names : list string :=
  ["nusp"; "número usp"; "numero usp"; "n° usp"; "n usp"].

Definition cols_to_rename : list (string * string) :=
  map (fun col => (col, col +:+ "_historico"))
    ["disciplina"; "Ano"; "Semestre"; "problema"; "parecer"].

Section RunApp.

Variable parse_number : string -> option number.

(** From the two frames read from the uploads to the joined frame and
    its metrics. *)
Definition run_app (df_consolidado df_requerimentos : loc)
  : M (loc * gmap string metric) :=
  df_consolidado ←
    find_and_rename_nusp_column df_consolidado consolidado_names;
  df_requerimentos ←
    find_and_rename_nusp_column df_requerimentos requerimentos_names;
  validate_dataframes df_consolidado df_requerimentos;;
  for_each
    (fun x => sanitize_nusp parse_number (fst x) (snd x);; mret tt)
    [(df_consolidado, "consolidado"); (df_requerimentos, "requerimentos")];;
  rename_inplace df_consolidado cols_to_rename;;
  alunos_com_historico ← merge df_requerimentos df_consolidado "nusp";
  metrics ← calculate_additional_metrics alunos_com_historico;
  mret (alunos_com_historico, metrics).


End RunApp.

(** A parser of decimal integers and of the two infinities, for running
    the model. *)
Fixpoint digits_value (acc : N) (s : string) : option N :=
  match s with
  | EmptyString => Some acc
  | String c s' =>
      let d := Str.code c in
      if ((48 <=? d) && (d <=? 57))%nat
      then digits_value (acc * 10 + N.of_nat (d - 48)) s'
      else None
  end.

Definition infinity_names : list string := ["inf"; "infinity"].

Definition parse_decimal (s : string) : option number :=
  match Str.strip s with
  | EmptyString => None
  | String c s' as t =>
      if Ascii.eqb c "-" then
        if Str.mem (Str.lower s') infinity_names then Some (Infinity true)
        else
          match s' with
          | EmptyString => None
          | _ => (fun n => Finite (- Z.of_N n)%Z) <$> digits_value 0 s'
          end
      else if Str.mem (Str.lower t) infinity_names
      then Some (Infinity false)
      else (fun n => Finite (Z.of_N n)) <$> digits_value 0 t
  end.

(** The store right after the two uploads are read. *)
Definition uploads (consolidado requerimentos : DataFrame) : state :=
  mkState {[ 1%positive := consolidado; 2%positive := requerimentos ]} [].

(** ** Badges of the per-student view *)

Module StrUpper.

(** [str.upper] on one byte of the Basic Latin block. *)
Definition upper_ascii (c : ascii) : ascii :=
  if ((97 <=? Str.code c) && (Str.code c <=? 122))%nat
  then Str.byte (Str.code c - 32) else c.

(** [s.upper()]: the case mapping of Basic Latin and Latin-1 Supplement
    (the micro sign becomes the Greek capital mu, the sharp s becomes SS,
    y with diaeresis becomes U+0178); other code points are left as they
    are. *)
Fixpoint upper (s : string) : string :=
  match s with
  | EmptyString => EmptyString
  | String c s' =>
      if (Str.code c =? 195)%nat then
        match s' with
        | EmptyString => String c EmptyString
        | String d s'' =>
            let n := Str.code d in
            if (n =? 159)%nat then String "S" (String "S" (upper s''))
            else if (n =? 191)%nat
            then String (Str.byte 197) (String (Str.byte 184) (upper s''))
            else if ((160 <=? n) && (n <=? 190) && negb (n =? 183))%nat
            then String c (String (Str.byte (n - 32)) (upper s''))
            else String c (String d (upper s''))
        end
      else if (Str.code c =? 194)%nat then
        match s' with
        | EmptyString => String c EmptyString
        | String d s'' =>
            if (Str.code d =? 181)%nat
            then String (Str.byte 206) (String (Str.byte 156) (upper s''))
            else String c (String d (upper s''))
        end
      else String (upper_ascii c) (upper s')
  end.

End StrUpper.

Definition badge_pendente : string := "📝 Pendente".
Definition badge_aprovado : string := "✅ ".
Definition badge_negado : string := "❌ ".
Definition badge_sem_parecer : string := "📝 ".


Definition format_parecer (parecer : cell) : string :=
  if isna parecer then badge_pendente
  else
    let parecer_str := Str.lower (astype_str parecer) in
    if Str.contains "aprovado" parecer_str
    then badge_aprovado +:+ astype_str parecer
    else if Str.contains "negado" parecer_str
            || Str.contains "indeferido" parecer_str
    then badge_negado +:+ astype_str parecer
    else badge_sem_parecer +:+ astype_str parecer.

(** [.upper()] under the accessor, on one value of a column that has
    passed the check of [str_accessor]. *)
Definition str_upper (c : cell) : cell :=
  match c with
  | VStr s => VStr (StrUpper.upper s)
  | _ => VNaN
  end.

(** [(series.str.upper() == code).sum()], the count behind the cards
    "Quebras de Requisito" and "Conflitos de Horário". *)
Definition count_problem (code : string) (problemas : list cell)
  : result nat :=
  match str_accessor problemas with
  | Ok texts =>
      Ok (sum_true
            (map (fun c => bool_decide (str_upper c = VStr code)) texts))
  | Raise e => Raise e
  end.

(** A text made of the bytes of a decimal numeral: digits and the minus
    sign, all below the colon in the code table. *)
Fixpoint numeral (s : string) : Prop :=
  match s with
  | EmptyString => True
  | String c s' => (Str.code c < 58)%nat /\ numeral s'
  end.

(** The row gets the badge [b] in the column [parecer_formatado]. *)
Definition parecer_badge (b : string) (parecer : cell) : bool :=
  String.prefix b (format_parecer parecer).

(** The row is kept by the filter of the table of granted requests,
    [parecer_historico.str.lower().str.contains('aprovado', na=False)]. *)
Definition deferido (parecer : cell) : bool :=
  str_contains ["aprovado"] (str_lower parecer).

Definition indeferido (parecer : cell) : bool :=
  str_contains ["negado"; "indeferido"] (str_lower parecer).

(** ** The headline cards of [run_app] *)

(** The share of the students of the current list that have a history,
    in percent. *)
Definition percentual_historico (alunos_unicos_historico total : nat) : Q :=
  if (0 <? total)%nat
  then (inject_Z (Z.of_nat alunos_unicos_historico)
        / inject_Z (Z.of_nat total) * 100)%Q
  else 0%Q.

(** What the five cards show. *)
Record cards : Type := mkCards {
  total_requerimentos : nat;
  alunos_unicos_historico : nat;
  percentual : Q;
  total_qr : nat;
  total_ch : nat;
  taxa_card : metric
}.

Definition headline_cards (df_requerimentos alunos_com_historico : loc)
    (metrics : gmap string metric) : M cards :=
  req ← deref df_requerimentos;
  nusp_historico ← getitem alunos_com_historico "nusp";
  let alunos_unicos_historico := nunique nusp_historico in
  nusp_requerimentos ← getitem df_requerimentos "nusp";
  let percentual_historico :=
    percentual_historico alunos_unicos_historico
      (nunique nusp_requerimentos) in
  problema ← getitem alunos_com_historico "problema_historico";
  total_qr ← lift (count_problem "QR" problema);
  problema ← getitem alunos_com_historico "problema_historico";
  total_ch ← lift (count_problem "CH" problema);
  mret (mkCards (len req) alunos_unicos_historico percentual_historico
          total_qr total_ch (taxa_aprovacao metrics)).

(** ** The password gate *)

(** What a run of the script reads from its configuration and from the
    login form: the outcome of [st.secrets["passwords"]["senha_mestra"]],
    the text of the password field, and whether the run was started by
    the button of the form. *)
Record page : Type := mkPage {
  senha_mestra : result string;
  password : string;
  submitted : bool
}.

(** How a call ends: it returns, it abandons the run with [st.rerun()],
    or it raises. *)
Inductive outcome : Type :=
  | Returns (b : bool)
  | Reruns
  | Raises (e : exn).

(** The [try] block: a missing entry ([KeyError], [AttributeError]) makes
    the password [admin]; other exceptions are not caught. *)
Definition correct_password (secret : result string) : result string :=
  match secret with
  | Ok s => Ok s
  | Raise (AttributeError _) | Raise (KeyError _) => Ok "admin"
  | Raise e => Raise e
  end.

(** The outcome, the session state left behind and the messages of
    [st.error].  [session] is [st.session_state], a dictionary that
    outlives the runs of one browser session. *)
Definition check_password (p : page) (session : gmap string bool)
  : outcome * gmap string bool * list string :=
  let session :=
    match session !! "password_correct" with
    | None => <["password_correct" := false]> session
    | Some _ => session
    end in
  if default false (session !! "password_correct")
  then (Returns true, session, [])
  else
    match correct_password (senha_mestra p) with
    | Raise e => (Raises e, session, [])
    | Ok correct_password =>
        if submitted p then
          if String.eqb (password p) correct_password
          then (Reruns, <["password_correct" := true]> session, [])
          else (Returns false, session,
                ["Senha incorreta. Tente novamente."])
        else (Returns false, session, [])
    end.

(** One run of the script, [if check_password(): run_app()]: whether
    [run_app] was entered, and the session state left behind. *)
Definition script (p : page) (session : gmap string bool)
  : bool * gmap string bool :=
  match check_password p session with
  | (Returns true, session', _) => (true, session')
  | (_, session', _) => (false, session')
  end.

(** A browser session: one run per interaction, each on the session
    state the run before it left. *)
Fixpoint browse (ps : list page) (session : gmap string bool) : list bool :=
  match ps with
  | [] => []
  | p :: ps' =>
      let '(entered, session') := script p session in
      entered :: browse ps' session'
  end.

(** The run submits the password the gate expects. *)
Definition opens (p : page) : bool :=
  match correct_password (senha_mestra p) with
  | Ok s => submitted p && String.eqb (password p) s
  | Raise _ => false
  end.

(** The flag of the gate, read as the script reads it. *)
Definition logged_in (session : gmap string bool) : bool :=
  default false (session !! "password_correct").

(** ** Sample tables *)

Definition sample_consolidado : DataFrame :=
  mkDataFrame
    ["Curso"; "Número USP"; "disciplina"; "Ano"; "Semestre"; "problema";
     "parecer"]
    [[VStr "BCC"; VInt 1; VStr "MAC0110"; VInt 2019; VInt 2; VStr "QR";
      VStr "Aprovado"]].

Definition sample_requerimentos : DataFrame :=
  mkDataFrame ["nusp"; "Nome completo"] [[VInt 1; VStr "Ana"]].

Definition dirty_consolidado : DataFrame :=
  mkDataFrame
    ["nusp"; "disciplina_historico"; "Ano_historico"; "Semestre_historico";
     "problema_historico"; "parecer_historico"]
    [[VStr "x"; VStr "MAC0110"; VInt 2019; VInt 2; VStr "QR"; VStr "Aprovado"];
     [VNaN; VStr "MAC0110"; VInt 2019; VInt 2; VStr "QR"; VStr "Negado"];
     [VStr " 7 "; VStr "MAC0121"; VInt 2020; VInt 1; VStr "CH"; VNaN]].

Definition dirty_requerimentos : DataFrame :=
  mkDataFrame ["nusp"; "Nome completo"]
    [[VInt 7; VStr "Ana"]; [VStr "sete"; VStr "Bia"]].

(** Current keys 1, 1, 2 and historical keys 1, 2, 2. *)
Definition keys_112 : DataFrame :=
  mkDataFrame ["nusp"; "Nome completo"]
    [[VInt 1; VStr "Ana"]; [VInt 1; VStr "Ana"]; [VInt 2; VStr "Bia"]].

Definition keys_122 : DataFrame :=
  mkDataFrame ["nusp"; "parecer_historico"]
    [[VInt 1; VStr "Aprovado"]; [VInt 2; VStr "Negado"];
     [VInt 2; VStr "Aprovado"]].

(** A joined frame; three decisions approve and one rejects. *)
Definition joined_sample : DataFrame :=
  mkDataFrame
    ["nusp"; "Nome completo"; "disciplina_historico"; "Ano_historico";
     "Semestre_historico"; "problema_historico"; "parecer_historico"]
    [[VInt 1; VStr "Ana"; VStr "MAC0110"; VInt 2019; VInt 2; VStr "QR";
      VStr "Aprovado"];
     [VInt 1; VStr "Ana"; VStr "MAC0121"; VInt 2019; VInt 10; VStr "CH";
      VStr "APROVADO com ressalva"];
     [VInt 2; VStr "Bia"; VStr "MAC0110"; VInt 2019; VInt 2; VStr "QR";
      VStr "Indeferido"];
     [VInt 2; VStr "Bia"; VStr "MAC0121"; VInt 2020; VInt 1; VStr "CH";
      VStr "aprovado"];
     [VInt 3; VStr "Caio"; VStr "MAC0110"; VInt 2020; VInt 1; VStr "CH";
      VNaN]].


(** A joined frame with one decision that holds both keywords. *)
Definition joined_both_keywords : DataFrame :=
  mkDataFrame
    ["nusp"; "Nome completo"; "disciplina_historico"; "Ano_historico";
     "Semestre_historico"; "problema_historico"; "parecer_historico"]
    [[VInt 1; VStr "Ana"; VStr "MAC0110"; VInt 2019; VInt 2; VStr "QR";
      VStr "aprovado parcialmente, negado o resto"]].

Definition only (l : loc) (d : DataFrame) : state :=
  mkState {[ l := d ]} [].




(** Two uploads that pass the validator: the history already carries the
    suffixed labels. *)
Definition upload_consolidado : DataFrame :=
  mkDataFrame
    ["Número USP"; "disciplina_historico"; "Ano_historico";
     "Semestre_historico"; "problema_historico"; "parecer_historico"]
    [[VInt 1; VStr "MAC0110"; VInt 2019; VInt 2; VStr "QR"; VStr "Aprovado"];
     [VStr "2"; VStr "MAC0110"; VInt 2019; VInt 10; VStr "CH";
      VStr "Indeferido"];
     [VStr "x"; VStr "MAC0121"; VInt 2019; VInt 10; VStr "CH"; VStr "Negado"];
     [VInt 2; VStr "MAC0121"; VInt 2020; VInt 1; VStr "CH"; VNaN]].

Definition upload_requerimentos : DataFrame :=
  mkDataFrame ["NUSP "; "Nome completo"]
    [[VInt 1; VStr "Ana"]; [VInt 1; VStr "Ana"]; [VInt 2; VStr "Bia"];
     [VNaN; VStr "?"]].

(** A current list and a history for the cards: keys 1, 1, 2, 4 against
    keys 1, 2, 2, 3. *)
Definition cards_requerimentos : DataFrame :=
  mkDataFrame ["nusp"; "Nome completo"]
    [[VInt 1; VStr "Ana"]; [VInt 1; VStr "Ana"]; [VInt 2; VStr "Bia"];
     [VInt 4; VStr "Davi"]].

Definition cards_consolidado : DataFrame :=
  mkDataFrame
    ["nusp"; "disciplina_historico"; "Ano_historico"; "Semestre_historico";
     "problema_historico"; "parecer_historico"]
    [[VInt 1; VStr "MAC0110"; VInt 2019; VInt 2; VStr "qr"; VStr "Aprovado"];
     [VInt 2; VStr "MAC0110"; VInt 2019; VInt 2; VStr "CH"; VStr "Negado"];
     [VInt 2; VStr "MAC0121"; VInt 2020; VInt 1; VInt 7; VNaN];
     [VInt 3; VStr "MAC0121"; VInt 2020; VInt 1; VStr "QR"; VStr "Negado"]].

Definition cards_store (j : DataFrame) : state :=
  mkState {[ 1%positive := cards_consolidado; 2%positive := cards_requerimentos;
             3%positive := j ]} [].




(** A history whose key column is a synonym only once its label is
    trimmed and lower-cased. *)
Definition spaced_consolidado : DataFrame :=
  mkDataFrame
    ["Curso"; " N USP "; "disciplina"; "Ano"; "Semestre"; "problema";
     "parecer"]
    [[VStr "BCC"; VInt 1; VStr "MAC0110"; VInt 2019; VInt 2; VStr "QR";
      VStr "Aprovado"]].

(** * Properties *)

(** ** Texts *)

Example lower_numero : Str.lower "NÚMERO USP" = "número usp".
Proof. reflexivity. Qed.

Example strip_n_usp : Str.strip "  n usp	 " = "n usp".
Proof. reflexivity. Qed.

Example replace_suffix :
  Str.replace "_historico" "" "Ano_historico" = "Ano".
Proof. reflexivity. Qed.

Lemma mem_true (x : string) (names : list string) :
  Str.mem x names = true <-> In x names.
Proof.
  unfold Str.mem. rewrite existsb_exists. split.
  - intros (y & Hy & Heq). apply String.eqb_eq in Heq. by subst.
  - intros Hin. exists x. split; [done | apply String.eqb_refl].
Qed.

Lemma mem_false (x : string) (names : list string) :
  Str.mem x names = false <-> ~ In x names.
Proof.
  rewrite <- mem_true. destruct (Str.mem x names); split; intros H;
    try done; by destruct H.
Qed.

(** ** The store *)

Lemma bind_run {A B} (m : M A) (f : A -> M B) (st st' : state) (a : A) :
  m st = Ok (a, st') -> (m ≫= f) st = f a st'.
Proof. intros H. unfold mbind, M_bind. by rewrite H. Qed.

Lemma deref_run (l : loc) (d : DataFrame) (st : state) :
  frames st !! l = Some d -> deref l st = Ok (d, st).
Proof. intros H. unfold deref. by rewrite H. Qed.

Lemma rename_inplace_run (l : loc) (d : DataFrame) (st : state) mapping :
  frames st !! l = Some d ->
  rename_inplace l mapping st = Ok (tt, with_frame l (rename mapping d) st).
Proof.
  intros H. unfold rename_inplace.
  by rewrite (bind_run _ _ _ _ _ (deref_run _ _ _ H)).
Qed.

Lemma getitem_run (l : loc) (d : DataFrame) (st : state) name col :
  frames st !! l = Some d -> get_column name d = Ok col ->
  getitem l name st = Ok (col, st).
Proof.
  intros H Hc. unfold getitem.
  rewrite (bind_run _ _ _ _ _ (deref_run _ _ _ H)).
  unfold lift. by rewrite Hc.
Qed.

Lemma lift_run {A} (r : result A) (a : A) (st : state) :
  r = Ok a -> lift r st = Ok (a, st).
Proof. by intros ->. Qed.

Lemma dropna_inplace_run (l : loc) (d : DataFrame) (st : state) name i :
  frames st !! l = Some d -> get_loc name (columns d) = Ok i ->
  dropna_inplace l name st
  = Ok (tt, with_frame l
              (mkDataFrame (columns d)
                 (List.filter (fun r => negb (isna (cell_at i r))) (rows d)))
              st).
Proof.
  intros H Hi. unfold dropna_inplace.
  rewrite (bind_run _ _ _ _ _ (deref_run _ _ _ H)).
  unfold dropna_subset. by rewrite Hi.
Qed.

Lemma setitem_run (l : loc) (d : DataFrame) (st : state) name vals :
  frames st !! l = Some d ->
  setitem l name vals st = Ok (tt, with_frame l (set_column name vals d) st).
Proof.
  intros H. unfold setitem.
  by rewrite (bind_run _ _ _ _ _ (deref_run _ _ _ H)).
Qed.

(** ** Column Normalizer *)

Lemma first_nusp_column_first (names pre post : list string) col :
  Forall (fun c => is_nusp_column names c = false) pre ->
  is_nusp_column names col = true ->
  first_nusp_column names (pre ++ col :: post) = Some col.
Proof.
  intros Hpre Hcol. induction Hpre as [|c pre Hc _ IH]; simpl.
  - by rewrite Hcol.
  - by rewrite Hc.
Qed.

Lemma first_nusp_column_none (names cols : list string) :
  Forall (fun c => is_nusp_column names c = false) cols ->
  first_nusp_column names cols = None.
Proof.
  induction 1 as [|c cols Hc _ IH]; simpl; [done | by rewrite Hc].
Qed.

Lemma rename_one_columns (col new : string) (d : DataFrame) :
  columns (rename [(col, new)] d)
  = map (fun c => if String.eqb col c then new else c) (columns d).
Proof.
  unfold rename. simpl. apply map_ext. intros c.
  by destruct (String.eqb col c).
Qed.

Lemma numero_usp_recognised (names : list string) :
  is_nusp_column names "Número USP" = true.
Proof.
  unfold is_nusp_column. apply orb_true_iff. right. by vm_compute.
Qed.

Lemma mem_norm (synonyms : list string) (col : string) :
  Str.mem (Str.strip (Str.lower col))
    (map (fun n => Str.strip (Str.lower n)) synonyms) = true
  <-> matches_synonym synonyms col.
Proof.
  rewrite mem_true, in_map_iff. unfold matches_synonym, same_label. split.
  - intros (name & Heq & Hin). by exists name.
  - intros (name & Hin & Heq). by exists name.
Qed.

(** The test of the loop is the matching of the specification. *)
Lemma is_nusp_column_recognised (synonyms : list string) (col : string) :
  is_nusp_column (map (fun n => Str.strip (Str.lower n)) synonyms) col = true
  <-> recognised synonyms col.
Proof.
  unfold is_nusp_column, recognised, holds_keyword.
  rewrite orb_true_iff, mem_norm, existsb_exists. done.
Qed.

Lemma is_nusp_column_not_recognised (synonyms : list string) (col : string) :
  is_nusp_column (map (fun n => Str.strip (Str.lower n)) synonyms) col = false
  <-> ~ recognised synonyms col.
Proof.
  rewrite <- is_nusp_column_recognised.
  destruct (is_nusp_column _ col); split; intros H; try done.
Qed.

(** C7. Column Normalizer.  A label is recognised when, the case of its
    letters and the blanks around it set aside, it is one of the
    synonyms or holds one of the fixed keywords.  A column literally
    named "Número USP" is recognised whatever the synonyms are, and with
    the synonyms of the application so is " N USP ", which holds no
    keyword and is a synonym only once trimmed and lower-cased.  When
    some column of the frame is recognised, the call succeeds, returns
    the same reference, and updates the frame in place: the first such
    column is now labelled "nusp", the rows and the number of columns
    are the same, and every column with another label keeps its label.
    When no column is recognised, the call raises the error whose
    message lists the column labels of the frame. *)
Theorem normalizer_renames_first_match_or_raises
    (st : state) (l : loc) (d : DataFrame) (possible_names : list string) :
  frames st !! l = Some d ->
  recognised possible_names "Número USP"
  /\ recognised consolidado_names " N USP "
  /\ ~ holds_keyword " N USP "
  /\ ~ recognised consolidado_names "Curso"
  /\ (forall pre col post,
        columns d = pre ++ col :: post ->
        Forall (fun c => ~ recognised possible_names c) pre ->
        recognised possible_names col ->
        exists d',
          find_and_rename_nusp_column l possible_names st
          = Ok (l, with_frame l d' st)
          /\ rows d' = rows d
          /\ length (columns d') = length (columns d)
          /\ columns d' !! length pre = Some "nusp"
          /\ forall j c, columns d !! j = Some c -> c <> col ->
                         columns d' !! j = Some c)
  /\ (Forall (fun c => ~ recognised possible_names c) (columns d) ->
      find_and_rename_nusp_column l possible_names st
      = Raise (ValueError (nusp_not_found +:+ Str.join ", " (columns d)))).
Proof.
  intros Hl.
  set (names := map (fun n => Str.strip (Str.lower n)) possible_names).
  split; [apply is_nusp_column_recognised, numero_usp_recognised |].
  split; [by apply is_nusp_column_recognised; vm_compute |].
  split.
  { intros (keyword & Hin & Hk). simpl in Hin.
    repeat (destruct Hin as [<- | Hin]; [by vm_compute in Hk |]).
    destruct Hin. }
  split; [by apply is_nusp_column_not_recognised; vm_compute |].
  split.
  - intros pre col post Hcols Hpre Hcol.
    apply is_nusp_column_recognised in Hcol.
    assert (Hpre' : Forall (fun c => is_nusp_column names c = false) pre).
    { eapply Forall_impl; [exact Hpre |]. intros c Hc.
      by apply is_nusp_column_not_recognised. }
    exists (rename [(col, "nusp")] d).
    unfold find_and_rename_nusp_column.
    rewrite (bind_run _ _ _ _ _ (deref_run _ _ _ Hl)).
    fold names. rewrite Hcols, (first_nusp_column_first _ _ _ _ Hpre' Hcol).
    rewrite (bind_run _ _ _ _ _ (rename_inplace_run _ _ _ _ Hl)).
    split; [done |]. split; [done |].
    rewrite rename_one_columns, Hcols. split; [by rewrite length_map |].
    split.
    + rewrite list_lookup_fmap, lookup_app_r, Nat.sub_diag by done.
      simpl. by rewrite String.eqb_refl.
    + intros j c Hj Hne. rewrite list_lookup_fmap, Hj. simpl.
      destruct (String.eqb_spec col c); congruence.
  - intros Hnone.
    assert (Hnone' : Forall (fun c => is_nusp_column names c = false)
                       (columns d)).
    { eapply Forall_impl; [exact Hnone |]. intros c Hc.
      by apply is_nusp_column_not_recognised. }
    unfold find_and_rename_nusp_column.
    rewrite (bind_run _ _ _ _ _ (deref_run _ _ _ Hl)).
    fold names. by rewrite (first_nusp_column_none _ _ Hnone').
Qed.

Lemma normalizer_renames_first_match_or_raises_witness :
  exists d',
    find_and_rename_nusp_column 1%positive consolidado_names
      (uploads spaced_consolidado sample_requerimentos)
    = Ok (1%positive,
          with_frame 1%positive d'
            (uploads spaced_consolidado sample_requerimentos))
    /\ columns d' !! 1%nat = Some "nusp"
    /\ columns d' !! 0%nat = Some "Curso".
Proof.
  destruct (normalizer_renames_first_match_or_raises
              (uploads spaced_consolidado sample_requerimentos)
              1%positive spaced_consolidado consolidado_names eq_refl)
    as (_ & Hspaced & _ & Hcurso & Hfound & _).
  destruct (Hfound ["Curso"] " N USP "
              ["disciplina"; "Ano"; "Semestre"; "problema"; "parecer"]
              eq_refl)
    as (d' & Hrun & _ & _ & Hkey & Hother).
  - by repeat constructor.
  - exact Hspaced.
  - exists d'. split; [exact Hrun |]. split; [exact Hkey |].
    apply Hother; [reflexivity | discriminate].
Defined.

(** ** Schema Validator *)

Lemma missing_from_In (required cols : list string) (c : string) :
  In c required -> ~ In c cols -> In c (missing_from required cols).
Proof.
  intros Hreq Hcols. unfold missing_from. apply filter_In. split; [done |].
  apply negb_true_iff. by apply mem_false.
Qed.

(** The validator asks the history for the suffixed labels: a history
    without a column "disciplina_historico" is refused, whatever else it
    holds. *)
Lemma validate_requires_suffixed_labels
    (st : state) (lc lr : loc) (dc dr : DataFrame) :
  frames st !! lc = Some dc -> frames st !! lr = Some dr ->
  ~ In "disciplina_historico" (columns dc) ->
  exists msg, validate_dataframes lc lr st = Raise (ValueError msg).
Proof.
  intros Hc Hr Hno. unfold validate_dataframes.
  rewrite (bind_run _ _ _ _ _ (deref_run _ _ _ Hc)).
  rewrite (bind_run _ _ _ _ _ (deref_run _ _ _ Hr)).
  assert (Hin : In "disciplina_historico"
                  (missing_from (["nusp"] ++ renamed_consolidado_cols)
                     (columns dc))).
  { apply missing_from_In; [| done]. simpl. tauto. }
  destruct (missing_from (["nusp"] ++ renamed_consolidado_cols) (columns dc))
    as [|m ms]; [by destruct Hin |].
  simpl. eauto.
Qed.

(** C1. With the history in the format the application documents (nusp,
    disciplina, Ano, Semestre, problema, parecer) and the current list
    with nusp and Nome completo, the run stops at the Schema Validator:
    it raises the error that reports the five history columns as
    missing, whatever the rows of the two files are. *)
Theorem documented_format_fails_validation
    (parse_number : string -> option number) (rows_c rows_r : list (list cell)) :
  run_app parse_number 1%positive 2%positive
    (uploads
       (mkDataFrame
          ["nusp"; "disciplina"; "Ano"; "Semestre"; "problema"; "parecer"]
          rows_c)
       (mkDataFrame ["nusp"; "Nome completo"] rows_r))
  = Raise
      (ValueError
         "Arquivo consolidado: colunas faltando - disciplina, Ano, Semestre, problema, parecer").
Proof. reflexivity. Qed.

(** ** Key Sanitizer *)

Lemma with_frame_lookup (l : loc) (d : DataFrame) (st : state) :
  frames (with_frame l d st) !! l = Some d.
Proof. apply lookup_insert_eq. Qed.


Lemma with_frame_twice (l : loc) (d1 d2 : DataFrame) (st : state) :
  with_frame l d2 (with_frame l d1 st) = with_frame l d2 st.
Proof. unfold with_frame. simpl. by rewrite insert_insert_eq. Qed.

Lemma with_frame_warnings (l : loc) (d : DataFrame) msgs (st : state) :
  with_frame l d (with_warnings msgs st)
  = with_warnings msgs (with_frame l d st).
Proof. done. Qed.


Lemma with_warnings_nil (st : state) : with_warnings [] st = st.
Proof. destruct st. unfold with_warnings. simpl. by rewrite app_nil_r. Qed.

Lemma get_loc_index_of (name : string) (cols : list string) (i : nat) :
  get_loc name cols = Ok i -> index_of name cols = Some i.
Proof.
  unfold get_loc. destruct (index_of name cols); [| done].
  case_decide; [| done]. by intros [= ->].
Qed.

Lemma get_column_at (name : string) (d : DataFrame) (i : nat) :
  get_loc name (columns d) = Ok i ->
  get_column name d = Ok (map (cell_at i) (rows d)).
Proof. intros H. unfold get_column. by rewrite H. Qed.

Lemma set_column_at (name : string) (d : DataFrame) (i : nat) vals :
  get_loc name (columns d) = Ok i ->
  set_column name vals d = mkDataFrame (columns d) (write_at i vals (rows d)).
Proof.
  intros H. unfold set_column. by rewrite (get_loc_index_of _ _ _ H).
Qed.

Lemma write_at_map (i : nat) (f : list cell -> cell) (rs : list (list cell)) :
  write_at i (map f rs) rs = map (fun r => <[i := f r]> r) rs.
Proof. induction rs as [|r rs IH]; simpl; [done | by rewrite IH]. Qed.

Lemma cell_at_insert (i : nat) (v : cell) (r : list cell) :
  (i < length r)%nat -> cell_at i (<[i := v]> r) = v.
Proof. intros H. unfold cell_at. by rewrite list_lookup_insert_eq. Qed.

Lemma cell_at_short (i : nat) (r : list cell) :
  (length r <= i)%nat -> cell_at i r = VNaN.
Proof. intros H. unfold cell_at. by rewrite lookup_ge_None_2. Qed.

Lemma insert_cell_at (i : nat) (r : list cell) : <[i := cell_at i r]> r = r.
Proof.
  unfold cell_at. destruct (r !! i) as [c|] eqn:E; simpl.
  - by apply list_insert_id.
  - apply list_insert_ge. by apply lookup_ge_None.
Qed.

Lemma filter_map {A B} (p : B -> bool) (f : A -> B) (l : list A) :
  List.filter p (map f l) = map f (List.filter (fun x => p (f x)) l).
Proof.
  induction l as [|x l IH]; simpl; [done |].
  destruct (p (f x)); simpl; by rewrite IH.
Qed.


Lemma map_result_astype_int (l : list cell) :
  Forall (fun c => exists z, c = VInt z) l -> map_result astype_int l = Ok l.
Proof.
  induction 1 as [|c l [z ->] _ IH]; simpl; [done | by rewrite IH].
Qed.

(** The cast to integers of a column of numbers none of which is
    missing: it fails exactly when one of them is infinite. *)
Lemma map_result_astype_int_numbers (l : list cell) :
  Forall (fun c => is_text c = false /\ isna c = false) l ->
  map_result astype_int l
  = if existsb is_inf l
    then Raise (ValueError
                  "Cannot convert non-finite values (NA or inf) to integer")
    else Ok l.
Proof.
  induction 1 as [|c l [Ht Hn] _ IH]; simpl; [done |].
  destruct c as [z|s| |b]; try done; simpl.
  rewrite IH. by destruct (existsb is_inf l).
Qed.

Section KeySanitizerFacts.

Variable parse_number : string -> option number.

Local Abbreviation coerced := (coerced_key parse_number).

Lemma cell_at_coerced (i : nat) (r : list cell) :
  cell_at i (<[i := coerced i r]> r) = coerced i r.
Proof.
  destruct (decide (i < length r)%nat) as [Hlt|Hge].
  - by apply cell_at_insert.
  - rewrite list_insert_ge by lia. unfold coerced_key.
    rewrite cell_at_short by lia. done.
Qed.

Lemma coerced_not_text (i : nat) (r : list cell) :
  is_text (coerced i r) = false.
Proof.
  unfold coerced_key, to_numeric_coerce.
  destruct (cell_at i r) as [z|s| |b]; try done.
  by destruct (parse_number s) as [[z|b]|].
Qed.

Lemma coerced_int_or_nan (i : nat) (r : list cell) :
  isna (coerced i r) = false -> is_inf (coerced i r) = false ->
  exists z, coerced i r = VInt z.
Proof.
  pose proof (coerced_not_text i r) as Ht.
  destruct (coerced i r) as [z|s| |b]; try done. eauto.
Qed.

Lemma finite_keys (i : nat) (d : DataFrame) (r : list cell) :
  has_infinite_key parse_number i d = false -> In r (rows d) ->
  is_inf (coerced i r) = false.
Proof.
  unfold has_infinite_key. intros Hno Hr.
  destruct (is_inf (coerced i r)) eqn:E; [| done].
  assert (existsb (fun r => is_inf (coerced i r)) (rows d) = true);
    [| congruence].
  apply existsb_exists. by exists r.
Qed.

Lemma kept_keys_infinite (i : nat) (rs : list (list cell)) :
  existsb is_inf
    (map (coerced i)
       (List.filter (fun r => negb (isna (coerced i r))) rs))
  = existsb (fun r => is_inf (coerced i r)) rs.
Proof.
  induction rs as [|r rs IH]; simpl; [done |].
  destruct (coerced i r) as [z|s| |b] eqn:E; simpl; rewrite ?E; simpl;
    by rewrite ?IH.
Qed.

(** One pass of the loop body on the frame behind [l]: the cast at its
    end fails when a key has been read as an infinite number, and
    otherwise the frame is left sanitised. *)
Lemma sanitize_nusp_result (st : state) (l : loc) (d : DataFrame)
    (nome : string) (i : nat) :
  frames st !! l = Some d ->
  get_loc "nusp" (columns d) = Ok i ->
  sanitize_nusp parse_number l nome st
  = if has_infinite_key parse_number i d
    then Raise (ValueError
                  "Cannot convert non-finite values (NA or inf) to integer")
    else Ok (length (dropped_rows parse_number i d),
             with_warnings (sanitize_warnings parse_number i d nome)
               (with_frame l (sanitized_frame parse_number i d) st)).
Proof.
  intros Hl Hi. unfold sanitize_nusp.
  rewrite (bind_run _ _ _ _ _
             (getitem_run _ _ _ _ _ Hl (get_column_at _ _ _ Hi))).
  rewrite (bind_run _ _ _ _ _ (setitem_run _ _ _ _ _ Hl)).
  rewrite (set_column_at _ _ _ _ Hi), map_map, write_at_map.
  set (d1 := mkDataFrame _ _).
  assert (Hi1 : get_loc "nusp" (columns d1) = Ok i) by done.
  rewrite (bind_run _ _ _ _ _
             (getitem_run _ _ _ _ _ (with_frame_lookup _ _ _)
                (get_column_at _ _ _ Hi1))).
  rewrite (bind_run _ _ _ _ _
             (dropna_inplace_run _ _ _ _ _ (with_frame_lookup l d1 st) Hi1)).
  rewrite with_frame_twice.
  assert (Hcol1 : map (cell_at i) (rows d1) = map (coerced i) (rows d)).
  { unfold d1. simpl. rewrite map_map. apply map_ext. intros r.
    apply cell_at_coerced. }
  assert (Hn : length (List.filter isna (map (cell_at i) (rows d1)))
               = length (dropped_rows parse_number i d)).
  { rewrite Hcol1, filter_map, length_map. done. }
  rewrite Hn.
  assert (Hd2 : mkDataFrame (columns d1)
                  (List.filter (fun r => negb (isna (cell_at i r))) (rows d1))
                = sanitized_frame parse_number i d).
  { unfold sanitized_frame, d1. simpl. f_equal. rewrite filter_map. f_equal.
    apply filter_ext. intros r. do 2 f_equal. apply cell_at_coerced. }
  rewrite Hd2. clear Hn Hcol1 Hd2.
  set (d2 := sanitized_frame parse_number i d).
  set (st2 := with_frame l d2 st).
  assert (Hw : (if (0 <? length (dropped_rows parse_number i d))%nat
                then warning (removed_warning
                                (length (dropped_rows parse_number i d)) nome)
                else mret tt) st2
               = Ok (tt, with_warnings
                           (sanitize_warnings parse_number i d nome) st2)).
  { unfold sanitize_warnings.
    destruct (length (dropped_rows parse_number i d)); simpl.
    - unfold mret, M_ret. by rewrite with_warnings_nil.
    - done. }
  rewrite (bind_run _ _ _ _ _ Hw).
  assert (Hl2 : frames (with_warnings
                          (sanitize_warnings parse_number i d nome) st2)
                !! l = Some d2) by apply with_frame_lookup.
  assert (Hi2 : get_loc "nusp" (columns d2) = Ok i) by done.
  rewrite (bind_run _ _ _ _ _
             (getitem_run _ _ _ _ _ Hl2 (get_column_at _ _ _ Hi2))).
  assert (Hkept : map (cell_at i) (rows d2)
                  = map (coerced i)
                      (List.filter (fun r => negb (isna (coerced i r)))
                         (rows d))).
  { unfold d2, sanitized_frame. simpl. rewrite map_map. apply map_ext.
    intros r. apply cell_at_coerced. }
  assert (Hints : map_result astype_int (map (cell_at i) (rows d2))
                  = if has_infinite_key parse_number i d
                    then Raise
                           (ValueError
                              "Cannot convert non-finite values (NA or inf) to integer")
                    else Ok (map (cell_at i) (rows d2))).
  { rewrite map_result_astype_int_numbers.
    - rewrite Hkept at 1. by rewrite kept_keys_infinite.
    - rewrite Hkept. apply List.Forall_forall. intros c Hc.
      apply in_map_iff in Hc as (r & <- & Hr).
      apply filter_In in Hr as [_ Hr].
      split; [apply coerced_not_text | by apply negb_true_iff]. }
  destruct (has_infinite_key parse_number i d).
  { unfold mbind, M_bind, lift. by rewrite Hints. }
  rewrite (bind_run _ _ _ _ _ (lift_run _ _ _ Hints)).
  rewrite (bind_run _ _ _ _ _ (setitem_run _ _ _ _ _ Hl2)).
  rewrite (set_column_at _ _ _ _ Hi2), write_at_map.
  unfold mret, M_ret. f_equal. f_equal.
  rewrite with_frame_warnings. f_equal. unfold st2.
  rewrite with_frame_twice. f_equal.
  destruct d2 as [c2 r2]. simpl. f_equal.
  rewrite <- (map_id r2) at 2. apply map_ext. intros r. apply insert_cell_at.
Qed.

Lemma sanitize_nusp_run (st : state) (l : loc) (d : DataFrame)
    (nome : string) (i : nat) :
  frames st !! l = Some d ->
  get_loc "nusp" (columns d) = Ok i ->
  has_infinite_key parse_number i d = false ->
  sanitize_nusp parse_number l nome st
  = Ok (length (dropped_rows parse_number i d),
        with_warnings (sanitize_warnings parse_number i d nome)
          (with_frame l (sanitized_frame parse_number i d) st)).
Proof.
  intros Hl Hi Hfin. by rewrite (sanitize_nusp_result st l d nome i Hl Hi), Hfin.
Qed.

End KeySanitizerFacts.


(** In general: a key of the history that is read as an infinite number
    makes the sanitising loop raise. *)
Lemma sanitize_loop_infinite_key
    (parse_number : string -> option number) (st : state) (lc lr : loc)
    (dc : DataFrame) (ic : nat) :
  frames st !! lc = Some dc ->
  get_loc "nusp" (columns dc) = Ok ic ->
  has_infinite_key parse_number ic dc = true ->
  for_each (fun x => sanitize_nusp parse_number (fst x) (snd x);; mret tt)
    [(lc, "consolidado"); (lr, "requerimentos")] st
  = Raise (ValueError
             "Cannot convert non-finite values (NA or inf) to integer").
Proof.
  intros Hc Hic Hinf. simpl for_each. unfold mbind, M_bind.
  by rewrite (sanitize_nusp_result parse_number st lc dc "consolidado" ic
                Hc Hic), Hinf.
Qed.



(** ** History Joiner *)

Lemma key_loc_index_of (on : string) (cols : list string) (i : nat) :
  key_loc on cols = Ok i -> index_of on cols = Some i.
Proof.
  unfold key_loc. destruct (index_of on cols); [| done].
  case_decide; [| done]. by intros [= ->].
Qed.

Lemma cell_at_app_l (i : nat) (r1 r2 : list cell) :
  (i < length r1)%nat -> cell_at i (r1 ++ r2) = cell_at i r1.
Proof. intros H. unfold cell_at. by rewrite lookup_app_l. Qed.

Lemma join_rows_cons (li ri : nat) lr (lrows rrows : list (list cell)) :
  join_rows li ri (lr :: lrows) rrows
  = map (fun rr => lr ++ delete ri rr)
      (List.filter (fun rr => bool_decide (cell_at li lr = cell_at ri rr))
         rrows)
    ++ join_rows li ri lrows rrows.
Proof. done. Qed.

Lemma join_rows_length (li ri : nat) (lrows rrows : list (list cell)) :
  length (join_rows li ri lrows rrows)
  = sum_list (map (fun lr => key_count ri (cell_at li lr) rrows) lrows).
Proof.
  induction lrows as [|lr lrows IH]; [done |].
  rewrite join_rows_cons, length_app, length_map, IH. simpl. f_equal.
  unfold key_count. f_equal. apply filter_ext. intros rr.
  apply bool_decide_ext. split; congruence.
Qed.

Lemma key_count_app (i : nat) (k : cell) (r1 r2 : list (list cell)) :
  key_count i k (r1 ++ r2) = (key_count i k r1 + key_count i k r2)%nat.
Proof. unfold key_count. by rewrite List.filter_app, length_app. Qed.

Lemma key_count_same_key (i : nat) (k : cell) (rs : list (list cell)) :
  Forall (fun r => cell_at i r = k) rs -> key_count i k rs = length rs.
Proof.
  unfold key_count. induction 1 as [|r rs Hr _ IH]; simpl; [done |].
  rewrite bool_decide_eq_true_2 by done. simpl. by rewrite IH.
Qed.

Lemma key_count_other_key (i : nat) (k : cell) (rs : list (list cell)) :
  Forall (fun r => cell_at i r <> k) rs -> key_count i k rs = 0%nat.
Proof.
  unfold key_count. induction 1 as [|r rs Hr _ IH]; simpl; [done |].
  by rewrite bool_decide_eq_false_2.
Qed.

(** Each key contributes the product of its two multiplicities. *)
Lemma join_rows_key_count (li ri : nat) (k : cell)
    (lrows rrows : list (list cell)) :
  Forall (fun r => (li < length r)%nat) lrows ->
  key_count li k (join_rows li ri lrows rrows)
  = (key_count li k lrows * key_count ri k rrows)%nat.
Proof.
  induction 1 as [|lr lrows Hlr _ IH]; [done |].
  rewrite join_rows_cons, key_count_app, IH.
  change (lr :: lrows) with ([lr] ++ lrows). rewrite key_count_app.
  rewrite Nat.mul_add_distr_r. f_equal.
  set (matching := List.filter _ rrows).
  destruct (decide (cell_at li lr = k)) as [Heq|Hne].
  - rewrite key_count_same_key.
    2:{ apply List.Forall_forall. intros r Hr.
        apply in_map_iff in Hr as (rr & <- & _). by rewrite cell_at_app_l. }
    rewrite (key_count_same_key _ _ [lr]) by (by constructor).
    rewrite length_map. simpl. rewrite Nat.add_0_r.
    unfold matching, key_count. f_equal. apply filter_ext. intros rr.
    apply bool_decide_ext. rewrite Heq. split; congruence.
  - rewrite key_count_other_key.
    2:{ apply List.Forall_forall. intros r Hr.
        apply in_map_iff in Hr as (rr & <- & _). by rewrite cell_at_app_l. }
    by rewrite (key_count_other_key _ _ [lr]) by (by constructor).
Qed.

Lemma merge_inner_run (left right : DataFrame) (on : string) (li ri : nat) :
  key_loc on (columns left) = Ok li ->
  key_loc on (columns right) = Ok ri ->
  suffix_clashes (columns left) (delete ri (columns right)) = [] ->
  exists cols,
    merge_inner left right on
    = Ok (mkDataFrame cols (join_rows li ri (rows left) (rows right))).
Proof.
  intros Hl Hr Hs. unfold merge_inner. rewrite Hl, Hr, Hs. eauto.
Qed.

(** C2. History Joiner.  For a current and a historical frame with the key
    column (the rows of the current one as long as its header), not refused
    for a clash of suffixed labels, the merge succeeds and its rows are the
    pairs of a current and a historical row with the same key: their number
    is the sum, over the current rows, of the number of historical rows with
    that key; a key met N times in the current frame and M times in the
    history is met N*M times in the result, and a key without historical
    rows is not met.  Current keys 1, 1, 2 against historical keys 1, 2, 2
    give 4 rows. *)
Theorem history_joiner_pairs_rows
    (cur hist : DataFrame) (li ri : nat) :
  key_loc "nusp" (columns cur) = Ok li ->
  key_loc "nusp" (columns hist) = Ok ri ->
  suffix_clashes (columns cur) (delete ri (columns hist)) = [] ->
  rectangular cur ->
  (exists j,
     merge_inner cur hist "nusp" = Ok j
     /\ len j
        = sum_list
            (map (fun r => key_count ri (cell_at li r) (rows hist))
               (rows cur))
     /\ (forall k,
           key_count li k (rows j)
           = (key_count li k (rows cur) * key_count ri k (rows hist))%nat)
     /\ (forall k,
           key_count ri k (rows hist) = 0%nat ->
           key_count li k (rows j) = 0%nat))
  /\ (exists j4, merge_inner keys_112 keys_122 "nusp" = Ok j4 /\ len j4 = 4%nat).
Proof.
  intros Hl Hr Hs Hrect. split; [| by eexists].
  destruct (merge_inner_run _ _ _ _ _ Hl Hr Hs) as (cols & Hj).
  eexists. split; [exact Hj |]. unfold len. simpl.
  assert (Hlong : Forall (fun r => (li < length r)%nat) (rows cur)).
  { eapply Forall_impl; [exact Hrect |]. intros r Hlen. simpl in Hlen.
    rewrite Hlen. apply key_loc_index_of in Hl.
    clear -Hl. revert li Hl.
    induction (columns cur) as [|c cs IH]; intros li Hl; [done |].
    simpl in Hl. destruct (String.eqb c "nusp").
    - injection Hl as <-. simpl. lia.
    - destruct (index_of "nusp" cs) as [i|]; [| done].
      injection Hl as <-. specialize (IH i eq_refl). simpl. lia. }
  split; [apply join_rows_length |]. split.
  - intros k. by apply join_rows_key_count.
  - intros k Hk. rewrite join_rows_key_count by done. rewrite Hk. lia.
Qed.

Lemma history_joiner_pairs_rows_witness :
  exists j,
    merge_inner keys_112 keys_122 "nusp" = Ok j
    /\ len j = 4%nat
    /\ key_count 0 (VInt 1) (rows j) = (2 * 1)%nat
    /\ key_count 0 (VInt 2) (rows j) = (1 * 2)%nat.
Proof.
  destruct (history_joiner_pairs_rows keys_112 keys_122 0%nat 0%nat
              eq_refl eq_refl eq_refl)
    as [(j & Hj & Hlen & Hk & _) _].
  - repeat constructor.
  - exists j. split; [exact Hj |]. split; [exact Hlen |].
    split; apply Hk.
Defined.

(** ** Reading and writing columns *)

Lemma index_of_lookup (name : string) (cols : list string) (i : nat) :
  index_of name cols = Some i -> cols !! i = Some name.
Proof.
  revert i. induction cols as [|c cols IH]; intros i; [done |]. simpl.
  destruct (String.eqb_spec c name) as [->|Hne].
  - by intros [= <-].
  - destruct (index_of name cols) as [k|]; [| done].
    intros [= <-]. by apply IH.
Qed.

Lemma index_of_None (name : string) (cols : list string) :
  index_of name cols = None <-> ~ In name cols.
Proof.
  induction cols as [|c cols IH]; simpl; [tauto |].
  destruct (String.eqb_spec c name) as [->|Hne].
  - split; [done | tauto].
  - destruct (index_of name cols); simpl.
    + split; [done |]. intros H.
      assert (Hno : ~ In name cols) by tauto. by apply IH in Hno.
    + split; [| done]. intros _ [H|H]; [done |]. by apply IH.
Qed.

Lemma index_of_In (name : string) (cols : list string) :
  In name cols -> exists i, index_of name cols = Some i.
Proof.
  intros Hin. destruct (index_of name cols) eqn:E; [eauto |].
  by apply index_of_None in E.
Qed.

Lemma index_of_app_l (name : string) (cols more : list string) (i : nat) :
  index_of name cols = Some i -> index_of name (cols ++ more) = Some i.
Proof.
  revert i. induction cols as [|c cols IH]; intros i; [done |]. simpl.
  destruct (String.eqb c name); [done |].
  destruct (index_of name cols) as [k|]; [| done].
  intros [= <-]. by rewrite (IH k).
Qed.

Lemma index_of_app_new (name : string) (cols : list string) :
  index_of name cols = None ->
  index_of name (cols ++ [name]) = Some (length cols).
Proof.
  induction cols as [|c cols IH]; simpl.
  - by rewrite String.eqb_refl.
  - destruct (String.eqb c name); [done |].
    destruct (index_of name cols); [done |]. intros _. by rewrite IH.
Qed.


Lemma get_loc_NoDup (name : string) (cols : list string) :
  NoDup cols -> In name cols ->
  exists i, get_loc name cols = Ok i /\ cols !! i = Some name.
Proof.
  intros Hnd Hin. destruct (index_of_In _ _ Hin) as [i Hi].
  exists i. split; [| by apply index_of_lookup].
  unfold get_loc. rewrite Hi.
  rewrite decide_True; [done |].
  apply NoDup_ListNoDup in Hnd.
  by apply (proj1 (NoDup_count_occ' string_dec cols) Hnd).
Qed.

Lemma get_loc_absent (name : string) (cols : list string) :
  ~ In name cols -> get_loc name cols = Raise (KeyError name).
Proof.
  intros H. unfold get_loc. by rewrite (proj2 (index_of_None _ _) H).
Qed.



Lemma write_at_read (i : nat) (vals : list cell) (rs : list (list cell)) :
  length vals = length rs ->
  Forall (fun r => (i < length r)%nat) rs ->
  map (cell_at i) (write_at i vals rs) = vals.
Proof.
  intros Hlen Hrs. revert vals Hlen.
  induction Hrs as [|r rs Hr _ IH]; intros [|v vals] Hlen; try done.
  simpl. rewrite cell_at_insert by done. f_equal. apply IH.
  by injection Hlen.
Qed.

Lemma write_new_read (n : nat) (vals : list cell) (rs : list (list cell)) :
  length vals = length rs ->
  Forall (fun r => length r = n) rs ->
  map (cell_at n) (write_new vals rs) = vals.
Proof.
  intros Hlen Hrs. revert vals Hlen.
  induction Hrs as [|r rs Hr _ IH]; intros [|v vals] Hlen; try done.
  simpl. f_equal; [| apply IH; by injection Hlen].
  unfold cell_at. rewrite lookup_app_r by lia.
  by rewrite Hr, Nat.sub_diag.
Qed.



Lemma rectangular_lt (d : DataFrame) (i : nat) (name : string) :
  rectangular d -> columns d !! i = Some name ->
  Forall (fun r => (i < length r)%nat) (rows d).
Proof.
  intros Hrect Hi. eapply Forall_impl; [exact Hrect |].
  intros r Hr. simpl in Hr. rewrite Hr. by eapply lookup_lt_Some.
Qed.

(** Reading back the column just written. *)
Lemma get_set_column (name : string) (vals : list cell) (d : DataFrame) :
  NoDup (columns d) -> rectangular d -> length vals = length (rows d) ->
  get_column name (set_column name vals d) = Ok vals.
Proof.
  intros Hnd Hrect Hlen. unfold set_column.
  destruct (index_of name (columns d)) as [i|] eqn:Hi.
  - pose proof (index_of_lookup _ _ _ Hi) as Hlk.
    destruct (get_loc_NoDup name (columns d) Hnd) as (i' & Hloc & _).
    { eapply list_elem_of_In, list_elem_of_lookup_2, Hlk. }
    assert (i' = i) as ->.
    { apply get_loc_index_of in Hloc. congruence. }
    unfold get_column. simpl. rewrite Hloc. f_equal.
    apply write_at_read; [done |]. by eapply rectangular_lt.
  - unfold get_column, get_loc. simpl.
    rewrite (index_of_app_new _ _ Hi), count_occ_app. simpl.
    destruct (string_dec name name); [| done].
    apply index_of_None in Hi.
    rewrite (proj1 (count_occ_not_In string_dec _ _) Hi). simpl.
    f_equal. by apply write_new_read.
Qed.


(** ** Counting values *)

Lemma unique_go_In (x : cell) (seen l : list cell) :
  In x (unique_go seen l) <-> In x l /\ ~ In x seen.
Proof.
  revert seen. induction l as [|y l IH]; intros seen; simpl; [tauto |].
  case_bool_decide as Hy.
  - apply list_elem_of_In in Hy. rewrite IH. split.
    + intros [H1 H2]. tauto.
    + intros [[-> | H1] H2]; [done | tauto].
  - rewrite list_elem_of_In in Hy. simpl. rewrite IH. simpl. split.
    + intros [-> | [H1 H2]]; [tauto |]. split; [tauto |]. tauto.
    + intros [[-> | H1] H2]; [tauto |].
      destruct (decide (y = x)) as [->|Hne]; [tauto |]. right. tauto.
Qed.

Lemma unique_go_NoDup (seen l : list cell) : NoDup (unique_go seen l).
Proof.
  revert seen. induction l as [|y l IH]; intros seen; simpl;
    [constructor |].
  case_bool_decide as Hy; [apply IH |]. constructor; [| apply IH].
  rewrite list_elem_of_In, unique_go_In. simpl. tauto.
Qed.

Lemma unique_In (x : cell) (l : list cell) : In x (unique l) <-> In x l.
Proof. unfold unique. rewrite unique_go_In. simpl. tauto. Qed.

Lemma filter_all {A} (p : A -> bool) (l : list A) :
  Forall (fun x => p x = true) l -> List.filter p l = l.
Proof. induction 1 as [|x l Hx _ IH]; simpl; [done | by rewrite Hx, IH]. Qed.

Lemma nunique_pos (l : list cell) :
  l <> [] -> Forall (fun c => exists z, c = VInt z) l -> nunique l <> 0%nat.
Proof.
  intros Hne Hall. unfold nunique. rewrite filter_all.
  - destruct l as [|x l]; [done |]. unfold unique. simpl. done.
  - eapply Forall_impl; [exact Hall |]. by intros c [z ->].
Qed.

Lemma value_counts_Permutation (l : list cell) :
  value_counts l
  ≡ₚ map (fun x => (x, occurrences x (List.filter (fun c => negb (isna c)) l)))
       (unique (List.filter (fun c => negb (isna c)) l)).
Proof. unfold value_counts. apply merge_sort_Permutation. Qed.

(** The entries of [value_counts]: each value that occurs and is not
    missing, once, with its number of occurrences. *)
Lemma value_counts_In (l : list cell) (x : cell) (n : nat) :
  Forall (fun c => isna c = false) l ->
  In (x, n) (value_counts l) <-> In x l /\ n = occurrences x l.
Proof.
  intros Hall. rewrite <- list_elem_of_In, value_counts_Permutation.
  rewrite filter_all.
  2:{ eapply Forall_impl; [exact Hall |]. intros c Hc. simpl in Hc.
      by rewrite Hc. }
  rewrite list_elem_of_In, in_map_iff. split.
  - intros (y & Heq & Hy). injection Heq as Hy1 Hy2. subst y n.
    split; [by apply unique_In | done].
  - intros [Hx ->]. exists x. split; [done |]. by apply unique_In.
Qed.

Lemma value_counts_labels_NoDup (l : list cell) :
  NoDup (map fst (value_counts l)).
Proof.
  rewrite value_counts_Permutation.
  rewrite map_map. simpl. rewrite map_id. apply unique_go_NoDup.
Qed.

(** ** Ordering index labels *)

Global Instance label_le_trans : Transitive label_le.
Proof.
  intros [x|x| |[]] [y|y| |[]] [z|z| |[]]; simpl; try done.
  - lia.
  - apply (@transitivity _ String.le _).
Qed.

Global Instance label_le_total : Total label_le.
Proof.
  intros [x|x| |[]] [y|y| |[]]; simpl; try tauto.
  - lia.
  - apply (@total _ String.le _).
Qed.

Global Instance entry_le_trans : Transitive entry_le.
Proof. intros a b c. unfold entry_le. apply label_le_trans. Qed.

Global Instance entry_le_total : Total entry_le.
Proof. intros a b. unfold entry_le. apply label_le_total. Qed.

Lemma sort_index_texts (s : list (cell * nat)) :
  Forall (fun e => exists p, fst e = VStr p) s ->
  sort_index s = Ok (merge_sort entry_le s).
Proof.
  intros Hall. unfold sort_index. destruct s as [|[a n] s]; [done |].
  rewrite List.Forall_forall in Hall.
  destruct (Hall (a, n) (or_introl eq_refl)) as [q Hq]. simpl in Hq. subst a.
  rewrite (proj2 (forallb_forall _ _)); [done |].
  intros e He. destruct (Hall e He) as [p Hp]. by rewrite Hp.
Qed.

(** ** Metrics Calculator *)

Lemma true_div_run (a b : nat) :
  b <> 0%nat ->
  true_div a b = Ok (inject_Z (Z.of_nat a) / inject_Z (Z.of_nat b))%Q.
Proof. by destruct b. Qed.

Lemma get_loc_mem (name : string) (cols : list string) (i : nat) :
  get_loc name cols = Ok i -> Str.mem name cols = true.
Proof.
  intros H. apply mem_true. apply get_loc_index_of, index_of_lookup in H.
  eapply list_elem_of_In, list_elem_of_lookup_2, H.
Qed.

Lemma series_astype_str_length (col : list cell) :
  length (series_astype_str col) = length col.
Proof.
  unfold series_astype_str. destruct (float_column col);
    by rewrite length_map.
Qed.

Lemma periodo_column_texts (ia ib : nat) (d : DataFrame) :
  Forall (fun c => exists p, c = VStr p) (periodo_column ia ib d).
Proof.
  unfold periodo_column.
  generalize (series_astype_str (column_values ib d)).
  induction (series_astype_str (column_values ia d)) as [|a l IH];
    intros [|b l']; simpl; constructor; [| apply IH].
  unfold periodo_label. eauto.
Qed.

Lemma periodo_column_length (ia ib : nat) (d : DataFrame) :
  length (periodo_column ia ib d) = length (rows d).
Proof.
  unfold periodo_column, column_values.
  rewrite length_zip_with, !series_astype_str_length, !length_map. lia.
Qed.

Lemma value_counts_texts (l : list cell) :
  Forall (fun c => exists p, c = VStr p) l ->
  Forall (fun e => exists p, fst e = VStr p) (value_counts l).
Proof.
  intros Hall. apply List.Forall_forall. intros [x n] Hin.
  apply value_counts_In in Hin as [Hx _].
  - rewrite List.Forall_forall in Hall. by apply Hall.
  - eapply Forall_impl; [exact Hall |]. by intros c [p ->].
Qed.

Lemma metrics_run_empty (st : state) (l : loc) (d : DataFrame) :
  frames st !! l = Some d -> empty d = true ->
  calculate_additional_metrics l st = Ok (∅, st).
Proof.
  intros Hl He. unfold calculate_additional_metrics.
  rewrite (bind_run _ _ _ _ _ (deref_run _ _ _ Hl)). by rewrite He.
Qed.

Lemma str_accessor_text (col : list cell) :
  existsb is_text col = true -> str_accessor col = Ok col.
Proof. intros H. destruct col; [done |]. unfold str_accessor. by rewrite H. Qed.

Lemma str_accessor_numeric (col : list cell) :
  col <> [] -> existsb is_text col = false ->
  str_accessor col
  = Raise (AttributeError "Can only use .str accessor with string values!").
Proof. intros Hne H. destruct col; [done |]. unfold str_accessor. by rewrite H. Qed.

(** On a frame with rows whose decisions hold no text, the Metrics
    Calculator stops at the accessor, before any metric is stored. *)
Lemma metrics_run_numeric_decisions (st : state) (l : loc) (d : DataFrame)
    (ip : nat) :
  frames st !! l = Some d -> empty d = false ->
  get_loc "parecer_historico" (columns d) = Ok ip ->
  existsb is_text (column_values ip d) = false ->
  calculate_additional_metrics l st
  = Raise (AttributeError "Can only use .str accessor with string values!").
Proof.
  intros Hl Hne Hip Hno. unfold calculate_additional_metrics.
  rewrite (bind_run _ _ _ _ _ (deref_run _ _ _ Hl)). rewrite Hne. cbn [negb].
  rewrite (bind_run _ _ _ _ _
             (getitem_run _ _ _ _ _ Hl (get_column_at _ _ _ Hip))).
  unfold mbind, M_bind, lift.
  rewrite (str_accessor_numeric (map (cell_at ip) (rows d))); [done | | done].
  unfold empty in Hne. destruct (columns d), (rows d); done.
Qed.

Section MetricsRun.

Variables (st : state) (l : loc) (d : DataFrame) (ip ik ic : nat).
Hypothesis Hl : frames st !! l = Some d.
Hypothesis Hne : empty d = false.
Hypothesis Hip : get_loc "parecer_historico" (columns d) = Ok ip.
Hypothesis Htext : existsb is_text (column_values ip d) = true.
Hypothesis Hik : get_loc "nusp" (columns d) = Ok ik.
Hypothesis Hic : get_loc "disciplina_historico" (columns d) = Ok ic.
Hypothesis Hkeys : nunique (column_values ik d) <> 0%nat.

Lemma metrics_run_without_period :
  Str.mem "Ano_historico" (columns d)
  && Str.mem "Semestre_historico" (columns d) = false ->
  calculate_additional_metrics l st = Ok (first_metrics ip ik ic d, st).
Proof using All.
  intros Hno. unfold calculate_additional_metrics.
  rewrite (bind_run _ _ _ _ _ (deref_run _ _ _ Hl)). rewrite Hne. cbn [negb].
  rewrite (bind_run _ _ _ _ _
             (getitem_run _ _ _ _ _ Hl (get_column_at _ _ _ Hip))).
  rewrite (bind_run _ _ _ _ _
             (lift_run _ _ _
                (str_accessor_text (map (cell_at ip) (rows d)) Htext))).
  rewrite (bind_run _ _ _ _ _
             (getitem_run _ _ _ _ _ Hl (get_column_at _ _ _ Hik))).
  rewrite (bind_run _ _ _ _ _ (lift_run _ _ _ (true_div_run _ _ Hkeys))).
  rewrite (bind_run _ _ _ _ _
             (getitem_run _ _ _ _ _ Hl (get_column_at _ _ _ Hic))).
  by rewrite Hno.
Qed.

Lemma metrics_run_with_period (ia ib : nat) :
  NoDup (columns d) -> rectangular d ->
  get_loc "Ano_historico" (columns d) = Ok ia ->
  get_loc "Semestre_historico" (columns d) = Ok ib ->
  calculate_additional_metrics l st
  = Ok (<["distribuicao_temporal" :=
            MSeries (merge_sort entry_le
                       (value_counts (periodo_column ia ib d)))]>
          (first_metrics ip ik ic d),
        with_frame l (set_column "periodo" (periodo_column ia ib d) d) st).
Proof using All.
  intros Hnd Hrect Hia Hib. unfold calculate_additional_metrics.
  rewrite (bind_run _ _ _ _ _ (deref_run _ _ _ Hl)). rewrite Hne. cbn [negb].
  rewrite (bind_run _ _ _ _ _
             (getitem_run _ _ _ _ _ Hl (get_column_at _ _ _ Hip))).
  rewrite (bind_run _ _ _ _ _
             (lift_run _ _ _
                (str_accessor_text (map (cell_at ip) (rows d)) Htext))).
  rewrite (bind_run _ _ _ _ _
             (getitem_run _ _ _ _ _ Hl (get_column_at _ _ _ Hik))).
  rewrite (bind_run _ _ _ _ _ (lift_run _ _ _ (true_div_run _ _ Hkeys))).
  rewrite (bind_run _ _ _ _ _
             (getitem_run _ _ _ _ _ Hl (get_column_at _ _ _ Hic))).
  rewrite (get_loc_mem _ _ _ Hia), (get_loc_mem _ _ _ Hib). cbn [andb].
  rewrite (bind_run _ _ _ _ _
             (getitem_run _ _ _ _ _ Hl (get_column_at _ _ _ Hia))).
  rewrite (bind_run _ _ _ _ _
             (getitem_run _ _ _ _ _ Hl (get_column_at _ _ _ Hib))).
  rewrite (bind_run _ _ _ _ _ (setitem_run _ _ _ _ _ Hl)).
  fold (column_values ia d) (column_values ib d) (periodo_column ia ib d).
  rewrite (bind_run _ _ _ _ _
             (getitem_run _ _ _ _ _ (with_frame_lookup _ _ _)
                (get_set_column _ _ _ Hnd Hrect
                   (periodo_column_length ia ib d)))).
  rewrite (bind_run _ _ _ _ _
             (lift_run _ _ _
                (sort_index_texts _
                   (value_counts_texts _ (periodo_column_texts ia ib d))))).
  done.
Qed.

End MetricsRun.

Lemma sum_true_filter {A} (f : A -> bool) (l : list A) :
  sum_true (map f l) = length (List.filter f l).
Proof.
  unfold sum_true. induction l as [|x l IH]; simpl; [done |].
  destruct (f x); simpl; by rewrite IH.
Qed.

Lemma count_aprovados_approved (col : list cell) :
  count_aprovados (map str_lower col) = approved col.
Proof.
  unfold count_aprovados, approved. rewrite map_map, sum_true_filter.
  f_equal. apply filter_ext. intros [z|s| |b]; simpl; try done.
  apply orb_false_r.
Qed.

Lemma count_negados_rejected (col : list cell) :
  count_negados (map str_lower col) = rejected col.
Proof.
  unfold count_negados, rejected. rewrite map_map, sum_true_filter.
  f_equal. apply filter_ext. intros [z|s| |b]; simpl; try done.
  by rewrite orb_false_r.
Qed.


Lemma has_text_at (name : string) (d : DataFrame) (i : nat) :
  has_text name d = true -> get_loc name (columns d) = Ok i ->
  existsb is_text (column_values i d) = true.
Proof.
  unfold has_text, get_column. intros H Hi. by rewrite Hi in H.
Qed.

Lemma joined_table_nonempty_rows (d : DataFrame) :
  empty d = false -> rows d <> [].
Proof. unfold empty. by destruct (columns d), (rows d). Qed.

(** The positions the Metrics Calculator reads in a joined frame. *)
Lemma joined_table_locs (d : DataFrame) :
  joined_table d -> empty d = false ->
  exists ip ik ic,
    get_loc "parecer_historico" (columns d) = Ok ip
    /\ get_loc "nusp" (columns d) = Ok ik
    /\ get_loc "disciplina_historico" (columns d) = Ok ic
    /\ nunique (column_values ik d) <> 0%nat.
Proof.
  intros [Hnd Hrect Hk Hp Hc Hkeys] Hne.
  destruct (get_loc_NoDup _ _ Hnd Hp) as (ip & Hip & _).
  destruct (get_loc_NoDup _ _ Hnd Hk) as (ik & Hik & _).
  destruct (get_loc_NoDup _ _ Hnd Hc) as (ic & Hic & _).
  exists ip, ik, ic. repeat split; try done.
  apply nunique_pos.
  - unfold column_values. pose proof (joined_table_nonempty_rows d Hne).
    by destruct (rows d).
  - unfold column_values. apply Forall_map.
    by apply Hkeys, get_loc_index_of.
Qed.




Lemma check_joined_table_sound (d : DataFrame) :
  check_joined_table d = true -> joined_table d.
Proof.
  unfold check_joined_table. rewrite !andb_true_iff.
  intros [[[[[Hnd Hrect] Hk] Hp] Hc] Hkeys]. split.
  - by apply bool_decide_eq_true in Hnd.
  - apply List.Forall_forall. intros r Hr.
    rewrite forallb_forall in Hrect. by apply Nat.eqb_eq, Hrect.
  - by apply mem_true.
  - by apply mem_true.
  - by apply mem_true.
  - intros i Hi. rewrite Hi in Hkeys. apply List.Forall_forall. intros r Hr.
    rewrite forallb_forall in Hkeys. specialize (Hkeys r Hr).
    destruct (cell_at i r); try done. eauto.
Qed.


(** C5. On an empty joined frame the Metrics Calculator raises nothing
    and returns the empty dictionary, leaving the store as it was: the
    rate shown is the default 0, and there is neither a list of top
    courses nor a temporal distribution. *)
Theorem metrics_of_empty_join (st : state) (l : loc) (d : DataFrame) :
  frames st !! l = Some d -> empty d = true ->
  exists m,
    calculate_additional_metrics l st = Ok (m, st)
    /\ taxa_aprovacao m = MNum 0
    /\ m !! "top_disciplinas" = None
    /\ m !! "distribuicao_temporal" = None.
Proof.
  intros Hl He. exists ∅. split; [by apply (metrics_run_empty st l d) |].
  done.
Qed.

Lemma metrics_of_empty_join_witness :
  exists m,
    calculate_additional_metrics 1%positive
      (only 1%positive (mkDataFrame (columns joined_sample) []))
    = Ok (m, only 1%positive (mkDataFrame (columns joined_sample) []))
    /\ taxa_aprovacao m = MNum 0
    /\ m !! "top_disciplinas" = None
    /\ m !! "distribuicao_temporal" = None.
Proof.
  apply (metrics_of_empty_join
           (only 1%positive (mkDataFrame (columns joined_sample) []))
           1%positive (mkDataFrame (columns joined_sample) []));
    reflexivity.
Defined.









(** ** Decisions classified twice *)

Lemma filter_or_and_length {A} (p q : A -> bool) (l : list A) :
  (length (List.filter p l) + length (List.filter q l)
   = length (List.filter (fun x => p x || q x) l)
     + length (List.filter (fun x => p x && q x) l))%nat.
Proof.
  induction l as [|x l IH]; simpl; [done |].
  destruct (p x), (q x); simpl; lia.
Qed.

(** C10. In the approval rate a decision whose text holds both a positive
    and a negative keyword counts once as approved and once as rejected:
    the two counts add up to the classified decisions plus those
    classified twice.  The text "aprovado parcialmente, negado o resto" is
    one of them, and on the joined frame with that single decision the two
    counts add up to 2 for 1 classified row, the rate being 50. *)
Theorem decision_with_both_keywords_counts_twice :
  (forall col,
     (count_aprovados (map str_lower col) + count_negados (map str_lower col)
      = classified col + classified_twice col)%nat)
  /\ str_contains ["aprovado"]
       (str_lower (VStr "aprovado parcialmente, negado o resto")) = true
  /\ str_contains ["negado"; "indeferido"]
       (str_lower (VStr "aprovado parcialmente, negado o resto")) = true
  /\ (let col := column_values 6 joined_both_keywords in
      count_aprovados (map str_lower col) = 1%nat
      /\ count_negados (map str_lower col) = 1%nat
      /\ classified col = 1%nat
      /\ (classified col
          < count_aprovados (map str_lower col)
            + count_negados (map str_lower col))%nat)
  /\ exists m st',
       calculate_additional_metrics 1%positive
         (only 1%positive joined_both_keywords) = Ok (m, st')
       /\ m !! "taxa_aprovacao" = Some (MNum (100 # 2)).
Proof.
  split.
  { intros col. rewrite count_aprovados_approved, count_negados_rejected.
    unfold approved, rejected, classified, classified_twice.
    apply filter_or_and_length. }
  split; [by vm_compute |]. split; [by vm_compute |].
  split; [by vm_compute |].
  eexists _, _. split; [by vm_compute |]. by vm_compute.
Qed.

(** ** Report Exporter *)

Lemma sapp_nil_l (b : string) : EmptyString +:+ b = b.
Proof. reflexivity. Qed.

Lemma sapp_cons (c : ascii) (a b : string) :
  String c a +:+ b = String c (a +:+ b).
Proof. reflexivity. Qed.
























(** ** A whole run *)

(** From two uploads that pass the validator to the joined frame: the
    run succeeds with one warning per file, the joined frame is a new
    object next to the two sanitised inputs, it has the shape the Metrics
    Calculator is given, and it ends up with the column [periodo]. *)
Example run_app_on_uploads :
  exists metrics st,
    run_app parse_decimal 1%positive 2%positive
      (uploads upload_consolidado upload_requerimentos)
    = Ok (3%positive, metrics, st)
    /\ warnings st
       = ["⚠️ Removidos 1 registros com NUSP inválido do arquivo consolidado";
          "⚠️ Removidos 1 registros com NUSP inválido do arquivo requerimentos"]
    /\ len <$> frames st !! 1%positive = Some 3%nat
    /\ len <$> frames st !! 2%positive = Some 3%nat
    /\ len <$> frames st !! 3%positive = Some 4%nat
    /\ check_joined_table <$> frames st !! 3%positive = Some true
    /\ columns <$> frames st !! 3%positive
       = Some ["nusp"; "Nome completo"; "disciplina_historico";
               "Ano_historico"; "Semestre_historico"; "problema_historico";
               "parecer_historico"; "periodo"]
    /\ metrics !! "taxa_aprovacao" = Some (MNum (200 # 3)).
Proof. eexists _, _. split; [by vm_compute |]. by vm_compute. Qed.

(** ** What the History Joiner hands to the Metrics Calculator *)

Lemma slength_app (a b : string) :
  String.length (a +:+ b) = (String.length a + String.length b)%nat.
Proof.
  induction a as [|c a IH]; [done |]. rewrite sapp_cons. simpl. by rewrite IH.
Qed.

Lemma sapp_same_length_inv (a b s t : string) :
  String.length s = String.length t -> a +:+ s = b +:+ t -> s = t.
Proof.
  intros Hlen. revert b. induction a as [|c a IH]; intros [|c' b] Heq.
  - done.
  - rewrite sapp_nil_l in Heq. subst s. rewrite sapp_cons in Hlen.
    simpl in Hlen. rewrite slength_app in Hlen. lia.
  - rewrite sapp_nil_l in Heq. subst t. rewrite sapp_cons in Hlen.
    simpl in Hlen. rewrite slength_app in Hlen. lia.
  - rewrite !sapp_cons in Heq. injection Heq as _ Heq. by apply (IH b).
Qed.

Lemma sapp_inj_r (a b s : string) : a +:+ s = b +:+ s -> a = b.
Proof.
  revert b. induction a as [|c a IH]; intros [|c' b] Heq.
  - done.
  - exfalso. apply (f_equal String.length) in Heq.
    rewrite sapp_nil_l, sapp_cons in Heq. simpl in Heq.
    rewrite slength_app in Heq. lia.
  - exfalso. apply (f_equal String.length) in Heq.
    rewrite sapp_nil_l, sapp_cons in Heq. simpl in Heq.
    rewrite slength_app in Heq. lia.
  - rewrite !sapp_cons in Heq. injection Heq as -> Heq. f_equal. by apply IH.
Qed.

Lemma duplicated_go_length (seen cols : list string) :
  length (duplicated_go seen cols) = length cols.
Proof.
  revert seen. induction cols as [|c cols IH]; intros seen; simpl;
    by rewrite ?IH.
Qed.

Lemma duplicated_go_spec (seen cols : list string) :
  Forall (fun b => b = false) (duplicated_go seen cols)
  <-> NoDup cols /\ (forall c, In c cols -> ~ In c seen).
Proof.
  revert seen. induction cols as [|c cols IH]; intros seen; simpl.
  - split; [intros _; split; [constructor | tauto] | constructor].
  - rewrite Forall_cons, IH, NoDup_cons, mem_false, list_elem_of_In.
    split.
    + intros (Hc & Hnd & Hseen). split.
      * split; [| done]. intros Hin. apply (Hseen c Hin). by left.
      * intros x [<- | Hx]; [done |]. intros Hin. apply (Hseen x Hx).
        by right.
    + intros ((Hc & Hnd) & Hseen). split; [apply Hseen; by left |].
      split; [done |]. intros x Hx [<- | Hin]; [done |].
      apply (Hseen x); [by right | done].
Qed.

Lemma duplicated_NoDup (cols : list string) :
  Forall (fun b => b = false) (duplicated cols) <-> NoDup cols.
Proof. unfold duplicated. rewrite duplicated_go_spec. simpl. tauto. Qed.

Lemma fresh_duplicates_nil (new : list string) (dn dold : list bool) :
  length new = length dn -> length dn = length dold ->
  Forall (fun b => b = false) dold ->
  map fst
    (List.filter (fun x : string * (bool * bool) =>
                    fst (snd x) && negb (snd (snd x)))
       (zip new (zip dn dold))) = [] ->
  Forall (fun b => b = false) dn.
Proof.
  revert dn dold.
  induction new as [|c new IH]; intros [|b dn] [|b' dold] Hl1 Hl2 Hold Hnil;
    simpl in *; try discriminate; [constructor |].
  apply Forall_cons in Hold as [-> Hold]. rewrite andb_true_r in Hnil.
  destruct b; [done |]. constructor; [done |].
  apply (IH dn dold); [lia | lia | done | done].
Qed.

(** When pandas accepts the suffixes, the labels of the merge are
    distinct. *)
Lemma suffix_clashes_NoDup (left right : list string) :
  NoDup left -> NoDup right -> suffix_clashes left right = [] ->
  NoDup
    (map (fun c => if Str.mem c left && Str.mem c right
                   then c +:+ "_x" else c) left
     ++ map (fun c => if Str.mem c left && Str.mem c right
                      then c +:+ "_y" else c) right).
Proof.
  intros Hl Hr Hs. unfold suffix_clashes in Hs.
  apply app_eq_nil in Hs as [H1 Hs]. apply app_eq_nil in Hs as [H2 Hs].
  apply app_eq_nil in Hs as [H3 H4].
  set (renl := fun c => if Str.mem c left && Str.mem c right
                        then c +:+ "_x" else c) in *.
  set (renr := fun c => if Str.mem c left && Str.mem c right
                        then c +:+ "_y" else c) in *.
  apply NoDup_app. split; [| split].
  - apply duplicated_NoDup.
    apply (fresh_duplicates_nil (map renl left) _ (duplicated left));
      [| | by apply duplicated_NoDup | done].
    + unfold duplicated. by rewrite duplicated_go_length.
    + unfold duplicated. by rewrite !duplicated_go_length, length_map.
  - intros x Hxl Hxr.
    apply list_elem_of_In, in_map_iff in Hxl as (c & Hc & Hcl).
    apply list_elem_of_In, in_map_iff in Hxr as (c' & Hc' & Hcr).
    assert (Hml : Str.mem c left = true) by by apply mem_true.
    assert (Hmr : Str.mem c' right = true) by by apply mem_true.
    unfold renl in Hc. unfold renr in Hc'. rewrite Hml in Hc.
    rewrite Hmr, andb_true_r in Hc'. simpl in Hc.
    destruct (Str.mem c right) eqn:Hcr'; destruct (Str.mem c' left) eqn:Hcl'.
    + subst x. apply sapp_same_length_inv in Hc'; [done | done].
    + subst x c'.
      assert (Hin : In (c +:+ "_x")
                      (List.filter
                         (fun c0 => Str.mem c0 right
                                    && negb (Str.mem c0 left
                                             && Str.mem c0 right))
                         (map renl left))).
      { apply filter_In. split.
        - apply in_map_iff. exists c. split; [| done].
          unfold renl. by rewrite Hml, Hcr'.
        - by rewrite Hmr, Hcl'. }
      by rewrite H3 in Hin.
    + subst x c.
      assert (Hin : In (c' +:+ "_y")
                      (List.filter
                         (fun c0 => Str.mem c0 left
                                    && negb (Str.mem c0 left
                                             && Str.mem c0 right))
                         (map renr right))).
      { apply filter_In. split.
        - apply in_map_iff. exists c'. split; [| done].
          unfold renr. by rewrite Hmr, Hcl'.
        - by rewrite Hml, Hcr'. }
      by rewrite H4 in Hin.
    + subst x c'. congruence.
  - apply duplicated_NoDup.
    apply (fresh_duplicates_nil (map renr right) _ (duplicated right));
      [| | by apply duplicated_NoDup | done].
    + unfold duplicated. by rewrite duplicated_go_length.
    + unfold duplicated. by rewrite !duplicated_go_length, length_map.
Qed.

Lemma delete_removes_unique (l : list string) (i : nat) (x : string) :
  NoDup l -> l !! i = Some x -> ~ In x (delete i l).
Proof.
  intros Hnd. revert i. induction Hnd as [|y l Hy Hnd IH]; intros [|i] Hi;
    simpl in *; try done.
  - injection Hi as ->. by rewrite <- list_elem_of_In.
  - intros [-> | Hin]; [| by apply (IH i)].
    apply Hy. by eapply list_elem_of_lookup_2.
Qed.



(** What the Key Sanitizer leaves has integer keys and full rows. *)
Lemma sanitized_frame_keys (parse_number : string -> option number) (i : nat)
    (d : DataFrame) :
  has_infinite_key parse_number i d = false ->
  Forall (fun r => exists z, cell_at i r = VInt z)
    (rows (sanitized_frame parse_number i d)).
Proof.
  intros Hfin.
  unfold sanitized_frame. simpl. apply List.Forall_forall. intros r' Hr'.
  apply in_map_iff in Hr' as (r & <- & Hr).
  apply filter_In in Hr as [Hin Hr]. rewrite cell_at_coerced.
  apply coerced_int_or_nan; [by apply negb_true_iff |].
  by eapply finite_keys.
Qed.

Lemma integer_keys_finite (parse_number : string -> option number) (i : nat)
    (d : DataFrame) :
  Forall (fun r => exists z, cell_at i r = VInt z) (rows d) ->
  has_infinite_key parse_number i d = false.
Proof.
  unfold has_infinite_key. induction 1 as [|r rs [z Hz] _ IH]; [done |].
  simpl. unfold coerced_key at 1. by rewrite Hz.
Qed.


(** * Further properties of the code *)

(** ** Column Normalizer, once more *)

Lemma first_nusp_column_Some (names cols : list string) (col : string) :
  first_nusp_column names cols = Some col ->
  exists pre post,
    cols = pre ++ col :: post
    /\ Forall (fun c => is_nusp_column names c = false) pre
    /\ is_nusp_column names col = true.
Proof.
  induction cols as [|c cols IH]; [done |]. simpl.
  destruct (is_nusp_column names c) eqn:Hc.
  - intros [= <-]. exists [], cols. by repeat split.
  - intros H. destruct (IH H) as (pre & post & -> & Hpre & Hcol).
    exists (c :: pre), post. repeat split; [| done]. by constructor.
Qed.

Lemma nusp_recognised (names : list string) :
  is_nusp_column names "nusp" = true.
Proof.
  unfold is_nusp_column. apply orb_true_iff. right. by vm_compute.
Qed.

Lemma rename_nusp_nusp (d : DataFrame) : rename [("nusp", "nusp")] d = d.
Proof.
  pose proof (rename_one_columns "nusp" "nusp" d) as Hc.
  destruct d as [cols rs]. unfold rename in *. cbn [columns rows] in *.
  f_equal. rewrite Hc. rewrite <- (map_id cols) at 2. apply map_ext.
  intros c. by destruct (String.eqb_spec "nusp" c) as [<- |].
Qed.

Lemma with_frame_same (l : loc) (d : DataFrame) (st : state) :
  frames st !! l = Some d -> with_frame l d st = st.
Proof.
  intros H. destruct st as [fr w]. unfold with_frame. simpl in *.
  by rewrite insert_id.
Qed.

(** X1. The Column Normalizer is idempotent: after a call that succeeded,
    a second call with the same synonyms succeeds as well and leaves the
    store exactly as the first call left it. *)
Theorem normalizer_idempotent
    (st st1 : state) (l : loc) (d : DataFrame) (possible_names : list string) :
  frames st !! l = Some d ->
  find_and_rename_nusp_column l possible_names st = Ok (l, st1) ->
  find_and_rename_nusp_column l possible_names st1 = Ok (l, st1).
Proof.
  intros Hl Hrun. unfold find_and_rename_nusp_column in Hrun.
  rewrite (bind_run _ _ _ _ _ (deref_run _ _ _ Hl)) in Hrun.
  set (names := map (fun n => Str.strip (Str.lower n)) possible_names) in *.
  destruct (first_nusp_column names (columns d)) as [col|] eqn:Hfirst;
    [| done].
  rewrite (bind_run _ _ _ _ _ (rename_inplace_run _ _ _ _ Hl)) in Hrun.
  injection Hrun as <-.
  destruct (first_nusp_column_Some _ _ _ Hfirst)
    as (pre & post & Hcols & Hpre & Hcol).
  set (d1 := rename [(col, "nusp")] d).
  assert (Hcols1 : columns d1
                   = pre ++ "nusp"
                       :: map (fun c => if String.eqb col c then "nusp" else c)
                            post).
  { unfold d1. rewrite rename_one_columns, Hcols, map_app. simpl.
    rewrite String.eqb_refl. f_equal.
    rewrite <- (map_id pre) at 2. apply map_ext_in. intros c Hc.
    destruct (String.eqb_spec col c) as [<- |]; [| done].
    rewrite List.Forall_forall in Hpre. specialize (Hpre col Hc). congruence. }
  unfold find_and_rename_nusp_column.
  rewrite (bind_run _ _ _ _ _ (deref_run _ _ _ (with_frame_lookup l d1 st))).
  fold names. rewrite Hcols1.
  rewrite (first_nusp_column_first _ _ _ _ Hpre (nusp_recognised names)).
  rewrite (bind_run _ _ _ _ _
             (rename_inplace_run _ _ _ _ (with_frame_lookup l d1 st))).
  by rewrite rename_nusp_nusp, with_frame_twice.
Qed.

Lemma normalizer_idempotent_witness :
  find_and_rename_nusp_column 1%positive consolidado_names
    (with_frame 1%positive (rename [("Número USP", "nusp")] sample_consolidado)
       (uploads sample_consolidado sample_requerimentos))
  = Ok (1%positive,
        with_frame 1%positive
          (rename [("Número USP", "nusp")] sample_consolidado)
          (uploads sample_consolidado sample_requerimentos)).
Proof.
  apply (normalizer_idempotent
           (uploads sample_consolidado sample_requerimentos) _ 1%positive
           sample_consolidado consolidado_names);
    reflexivity.
Defined.

(** ** Schema Validator, once more *)

Lemma missing_from_nil (required cols : list string) :
  missing_from required cols = [] <-> forall c, In c required -> In c cols.
Proof.
  unfold missing_from. induction required as [|r required IH]; simpl.
  - split; [by intros _ c [] | done].
  - destruct (Str.mem r cols) eqn:Hr; simpl.
    + apply mem_true in Hr. rewrite IH. split.
      * intros H c [<- | Hc]; [done | by apply H].
      * intros H c Hc. apply H. by right.
    + apply mem_false in Hr. split; [done |]. intros H. exfalso.
      apply Hr, H. by left.
Qed.

(** X2. The Schema Validator accepts the two frames exactly when the
    history has the key and the five suffixed labels and the current list
    has the key and the full-name label.  It never changes the store,
    and when it refuses, the exception is a [ValueError]. *)
Theorem validator_accepts_exactly_complete_schemas
    (st : state) (lc lr : loc) (dc dr : DataFrame) :
  frames st !! lc = Some dc -> frames st !! lr = Some dr ->
  (validate_dataframes lc lr st = Ok (tt, st)
   <-> (forall c, In c ("nusp" :: renamed_consolidado_cols) ->
                  In c (columns dc))
       /\ (forall c, In c ["nusp"; "Nome completo"] -> In c (columns dr)))
  /\ (validate_dataframes lc lr st = Ok (tt, st)
      \/ exists msg, validate_dataframes lc lr st = Raise (ValueError msg)).
Proof.
  intros Hc Hr. unfold validate_dataframes.
  rewrite (bind_run _ _ _ _ _ (deref_run _ _ _ Hc)).
  rewrite (bind_run _ _ _ _ _ (deref_run _ _ _ Hr)).
  rewrite <- !missing_from_nil.
  change (["nusp"] ++ renamed_consolidado_cols)
    with ("nusp" :: renamed_consolidado_cols).
  destruct (missing_from ("nusp" :: renamed_consolidado_cols) (columns dc))
    as [|m ms];
    destruct (missing_from ["nusp"; "Nome completo"] (columns dr))
      as [|m' ms']; simpl.
  - split; [by split | by left].
  - split; [| right; eauto]. split; [done | by intros [_ ?]].
  - split; [| right; eauto]. split; [done | by intros [? _]].
  - split; [| right; eauto]. split; [done | by intros [? _]].
Qed.

Lemma validator_accepts_exactly_complete_schemas_witness :
  validate_dataframes 1%positive 2%positive
    (uploads dirty_consolidado dirty_requerimentos)
  = Ok (tt, uploads dirty_consolidado dirty_requerimentos).
Proof.
  destruct (validator_accepts_exactly_complete_schemas
              (uploads dirty_consolidado dirty_requerimentos)
              1%positive 2%positive dirty_consolidado dirty_requerimentos
              eq_refl eq_refl) as [[_ Hback] _].
  apply Hback. split; intros c Hc; simpl in *;
    repeat (destruct Hc as [<- | Hc]; [tauto |]); destruct Hc.
Defined.

(** ** Key Sanitizer, once more *)

Lemma sanitized_frame_of_clean (parse_number : string -> option number) (i : nat)
    (d : DataFrame) :
  Forall (fun r => exists z, cell_at i r = VInt z) (rows d) ->
  sanitized_frame parse_number i d = d
  /\ dropped_rows parse_number i d = [].
Proof.
  intros Hall. destruct d as [cols rs]. unfold sanitized_frame, dropped_rows.
  cbn [columns rows] in *.
  assert (Hco : forall r, In r rs -> coerced_key parse_number i r = cell_at i r).
  { intros r Hr. rewrite List.Forall_forall in Hall.
    destruct (Hall r Hr) as [z Hz]. unfold coerced_key. by rewrite Hz. }
  split.
  - f_equal. rewrite filter_all.
    + rewrite <- (map_id rs) at 2. apply map_ext_in. intros r Hr.
      rewrite (Hco r Hr). apply insert_cell_at.
    + apply List.Forall_forall. intros r Hr. rewrite (Hco r Hr).
      rewrite List.Forall_forall in Hall. by destruct (Hall r Hr) as [z ->].
  - induction rs as [|r rs IH]; [done |]. simpl.
    apply Forall_cons in Hall as [[z Hz] Hall].
    unfold coerced_key at 1. rewrite Hz. simpl. apply IH; [done |].
    intros r' Hr'. apply Hco. by right.
Qed.

(** X3. The Key Sanitizer is idempotent: run again on a frame it has
    already sanitised, the loop body drops nothing, shows no warning and
    leaves the store as it is. *)
Theorem key_sanitizer_idempotent
    (parse_number : string -> option number) (st st1 : state) (l : loc)
    (d : DataFrame) (nome nome' : string) (i n : nat) :
  frames st !! l = Some d ->
  get_loc "nusp" (columns d) = Ok i ->
  sanitize_nusp parse_number l nome st = Ok (n, st1) ->
  sanitize_nusp parse_number l nome' st1 = Ok (0%nat, st1).
Proof.
  intros Hl Hi Hrun.
  rewrite (sanitize_nusp_result parse_number st l d nome i Hl Hi) in Hrun.
  destruct (has_infinite_key parse_number i d) eqn:Hfin; [done |].
  injection Hrun as _ <-.
  set (sf := sanitized_frame parse_number i d).
  set (st1 := with_warnings _ _).
  assert (Hl1 : frames st1 !! l = Some sf) by apply with_frame_lookup.
  assert (Hi1 : get_loc "nusp" (columns sf) = Ok i) by done.
  pose proof (sanitized_frame_keys parse_number i d Hfin) as Hints.
  rewrite (sanitize_nusp_run parse_number st1 l sf nome' i Hl1 Hi1
             (integer_keys_finite parse_number i sf Hints)).
  destruct (sanitized_frame_of_clean parse_number i sf Hints)
    as [Hsame Hnone].
  unfold sanitize_warnings. rewrite Hsame, Hnone. simpl.
  by rewrite with_warnings_nil, (with_frame_same _ _ _ Hl1).
Qed.

Lemma key_sanitizer_idempotent_witness :
  exists n st1,
    sanitize_nusp parse_decimal 1%positive "consolidado"
      (uploads dirty_consolidado dirty_requerimentos) = Ok (n, st1)
    /\ n = 2%nat
    /\ sanitize_nusp parse_decimal 1%positive "consolidado" st1
       = Ok (0%nat, st1).
Proof.
  eexists _, _. split; [by vm_compute |]. split; [reflexivity |].
  eapply (key_sanitizer_idempotent parse_decimal
            (uploads dirty_consolidado dirty_requerimentos) _ 1%positive
            dirty_consolidado "consolidado" "consolidado" 0%nat 2%nat);
    [reflexivity | reflexivity | by vm_compute].
Defined.

(** ** History Joiner, once more *)

Lemma join_rows_In (li ri : nat) (lrows rrows : list (list cell))
    (r : list cell) :
  In r (join_rows li ri lrows rrows)
  <-> exists lr rr,
        In lr lrows /\ In rr rrows /\ cell_at li lr = cell_at ri rr
        /\ r = lr ++ delete ri rr.
Proof.
  unfold join_rows. rewrite in_flat_map. split.
  - intros (lr & Hlr & Hr). apply in_map_iff in Hr as (rr & <- & Hrr).
    apply filter_In in Hrr as [Hrr Heq]. apply bool_decide_eq_true in Heq.
    by exists lr, rr.
  - intros (lr & rr & Hlr & Hrr & Heq & ->). exists lr. split; [done |].
    apply in_map_iff. exists rr. split; [done |].
    apply filter_In. split; [done |]. by apply bool_decide_eq_true.
Qed.

(** X4. The keys of the joined frame are keys of both inputs, and no
    other: a key is carried by a row of the joined frame exactly when it
    is carried by a row of the current list and by a row of the
    history. *)
Theorem joined_keys_are_common_keys
    (cur hist j : DataFrame) (li ri : nat) (k : cell) :
  key_loc "nusp" (columns cur) = Ok li ->
  key_loc "nusp" (columns hist) = Ok ri ->
  rectangular cur ->
  merge_inner cur hist "nusp" = Ok j ->
  ((exists r, In r (rows j) /\ cell_at li r = k)
   <-> (exists lr, In lr (rows cur) /\ cell_at li lr = k)
       /\ (exists rr, In rr (rows hist) /\ cell_at ri rr = k)).
Proof.
  intros Hl Hr Hrect Hj. unfold merge_inner in Hj. rewrite Hl, Hr in Hj.
  destruct (suffix_clashes _ _); [| done]. injection Hj as <-.
  cbn [rows].
  assert (Hlong : forall lr, In lr (rows cur) -> (li < length lr)%nat).
  { apply List.Forall_forall. eapply rectangular_lt; [done |].
    by apply index_of_lookup, key_loc_index_of. }
  split.
  - intros (r & Hr' & Hk). apply join_rows_In in Hr'
      as (lr & rr & Hlr & Hrr & Heq & ->).
    rewrite cell_at_app_l in Hk by (by apply Hlong).
    split; [by exists lr | exists rr; split; [done | congruence]].
  - intros [(lr & Hlr & Hkl) (rr & Hrr & Hkr)].
    exists (lr ++ delete ri rr). split.
    + apply join_rows_In. exists lr, rr. repeat split; [done | done |].
      congruence.
    + by rewrite cell_at_app_l by (by apply Hlong).
Qed.

Lemma joined_keys_are_common_keys_witness :
  exists j,
    merge_inner keys_112 keys_122 "nusp" = Ok j
    /\ exists r, In r (rows j) /\ cell_at 0 r = VInt 2.
Proof.
  destruct (merge_inner keys_112 keys_122 "nusp") as [j|e] eqn:Hj;
    [| discriminate].
  exists j. split; [reflexivity |].
  apply (joined_keys_are_common_keys keys_112 keys_122 j 0%nat 0%nat (VInt 2)
           eq_refl eq_refl ltac:(repeat constructor) Hj).
  split.
  - exists [VInt 2; VStr "Bia"]. split; [simpl; tauto | reflexivity].
  - exists [VInt 2; VStr "Negado"]. split; [simpl; tauto | reflexivity].
Defined.

(** ** Metrics Calculator, once more *)

Lemma nat_ratio_le_1 (a b : nat) :
  (a <= b)%nat -> b <> 0%nat ->
  (0 <= inject_Z (Z.of_nat a) / inject_Z (Z.of_nat b))%Q
  /\ (inject_Z (Z.of_nat a) / inject_Z (Z.of_nat b) <= 1)%Q.
Proof.
  intros Hab Hb.
  assert (Hpos : (0 < inject_Z (Z.of_nat b))%Q).
  { unfold Qlt. simpl. lia. }
  split.
  - apply Qle_shift_div_l; [done |]. rewrite Qmult_0_l.
    unfold Qle. simpl. lia.
  - apply Qle_shift_div_r; [done |]. rewrite Qmult_1_l.
    unfold Qle. simpl. lia.
Qed.

Lemma nat_ratio_ge_1 (a b : nat) :
  (b <= a)%nat -> b <> 0%nat ->
  (1 <= inject_Z (Z.of_nat a) / inject_Z (Z.of_nat b))%Q.
Proof.
  intros Hab Hb.
  assert (Hpos : (0 < inject_Z (Z.of_nat b))%Q).
  { unfold Qlt. simpl. lia. }
  apply Qle_shift_div_l; [done |]. rewrite Qmult_1_l.
  unfold Qle. simpl. lia.
Qed.

Lemma percent_bounds (a b : nat) :
  (a <= b)%nat -> b <> 0%nat ->
  (0 <= inject_Z (Z.of_nat a) / inject_Z (Z.of_nat b) * 100)%Q
  /\ (inject_Z (Z.of_nat a) / inject_Z (Z.of_nat b) * 100 <= 100)%Q.
Proof.
  intros Hab Hb. destruct (nat_ratio_le_1 a b Hab Hb) as [H0 H1]. split.
  - apply Qmult_le_0_compat; [done | unfold Qle; simpl; lia].
  - apply Qle_trans with (1 * 100)%Q; [| unfold Qle; simpl; lia].
    apply Qmult_le_compat_r; [done | unfold Qle; simpl; lia].
Qed.

Lemma taxa_bounds (a n : nat) :
  (0 <= taxa a (a + n))%Q /\ (taxa a (a + n) <= 100)%Q.
Proof.
  unfold taxa. destruct (a + n)%nat as [|t] eqn:Ht; simpl Nat.ltb; cbv iota.
  - split; unfold Qle; simpl; lia.
  - apply percent_bounds; lia.
Qed.

Lemma unique_go_length (seen l : list cell) :
  (length (unique_go seen l) <= length l)%nat.
Proof.
  revert seen. induction l as [|x l IH]; intros seen; simpl; [done |].
  case_bool_decide; simpl; [specialize (IH seen) | specialize (IH (x :: seen))];
    lia.
Qed.

Lemma filter_length_le {A} (p : A -> bool) (l : list A) :
  (length (List.filter p l) <= length l)%nat.
Proof. induction l as [|x l IH]; simpl; [done |]. destruct (p x); simpl; lia. Qed.

Lemma nunique_le_length (l : list cell) : (nunique l <= length l)%nat.
Proof.
  unfold nunique, unique.
  etransitivity; [apply unique_go_length | apply filter_length_le].
Qed.

Lemma first_metrics_lookups (m : gmap string metric) (ip ik ic : nat)
    (d : DataFrame) :
  (m = first_metrics ip ik ic d
   \/ exists dist,
        m = <["distribuicao_temporal" := dist]> (first_metrics ip ik ic d)) ->
  let pareceres := map str_lower (column_values ip d) in
  m !! "taxa_aprovacao"
  = Some (MNum (taxa (count_aprovados pareceres)
                  (count_aprovados pareceres + count_negados pareceres)))
  /\ m !! "media_pedidos_por_aluno"
     = Some (MNum (inject_Z (Z.of_nat (len d))
                   / inject_Z (Z.of_nat (nunique (column_values ik d))))%Q)
  /\ m !! "top_disciplinas"
     = Some (MSeries (take 5 (value_counts (column_values ic d)))).
Proof.
  intros [-> | [dist ->]]; unfold first_metrics;
    repeat split;
    repeat (rewrite lookup_insert_ne by done); by rewrite lookup_insert_eq.
Qed.

(** The run of the Metrics Calculator on a joined frame with rows,
    with the positions it reads. *)
Lemma metrics_run_joined_locs (st : state) (l : loc) (d : DataFrame) :
  frames st !! l = Some d -> joined_table d -> empty d = false ->
  has_text "parecer_historico" d = true ->
  exists ip ik ic m st',
    get_loc "parecer_historico" (columns d) = Ok ip
    /\ get_loc "nusp" (columns d) = Ok ik
    /\ get_loc "disciplina_historico" (columns d) = Ok ic
    /\ nunique (column_values ik d) <> 0%nat
    /\ calculate_additional_metrics l st = Ok (m, st')
    /\ (m = first_metrics ip ik ic d
        \/ exists dist,
             m = <["distribuicao_temporal" := dist]>
                   (first_metrics ip ik ic d)).
Proof.
  intros Hl Hj Hne Ht.
  destruct (joined_table_locs d Hj Hne) as (ip & ik & ic & Hip & Hik & Hic & Hn).
  exists ip, ik, ic.
  destruct (Str.mem "Ano_historico" (columns d)
            && Str.mem "Semestre_historico" (columns d)) eqn:Hper.
  - apply andb_true_iff in Hper as [Ha Hb].
    apply mem_true in Ha, Hb.
    destruct (get_loc_NoDup _ _ (joined_labels d Hj) Ha) as (ia & Hia & _).
    destruct (get_loc_NoDup _ _ (joined_labels d Hj) Hb) as (ib & Hib & _).
    eexists _, _. repeat (split; [done |]). split.
    + apply (metrics_run_with_period st l d ip ik ic Hl Hne Hip
                (has_text_at _ _ _ Ht Hip) Hik Hic Hn
               ia ib (joined_labels d Hj) (joined_rows d Hj) Hia Hib).
    + right. eauto.
  - eexists _, _. repeat (split; [done |]). split.
    + apply (metrics_run_without_period st l d ip ik ic Hl Hne Hip
                (has_text_at _ _ _ Ht Hip) Hik Hic Hn
               Hper).
    + by left.
Qed.

(** X5. On every joined frame with rows and with a text in its decision
    column, the Metrics Calculator returns, the approval rate that it
    stores lies between 0 and 100, and the mean number of requests per
    student that it stores is at least 1. *)
Theorem rate_and_mean_within_bounds
    (st : state) (l : loc) (d : DataFrame) :
  frames st !! l = Some d -> joined_table d -> empty d = false ->
  has_text "parecer_historico" d = true ->
  exists m st' rate mean,
    calculate_additional_metrics l st = Ok (m, st')
    /\ m !! "taxa_aprovacao" = Some (MNum rate)
    /\ (0 <= rate)%Q /\ (rate <= 100)%Q
    /\ m !! "media_pedidos_por_aluno" = Some (MNum mean)
    /\ (1 <= mean)%Q.
Proof.
  intros Hl Hj Hne Ht.
  destruct (metrics_run_joined_locs st l d Hl Hj Hne Ht)
    as (ip & ik & ic & m & st' & Hip & Hik & Hic & Hn & Hrun & Hm).
  destruct (first_metrics_lookups m ip ik ic d Hm) as (Hrate & Hmean & _).
  eexists m, st', _, _. split; [done |]. split; [exact Hrate |].
  split; [apply taxa_bounds |]. split; [apply taxa_bounds |].
  split; [exact Hmean |].
  apply nat_ratio_ge_1; [| done].
  unfold len. etransitivity; [apply nunique_le_length |].
  unfold column_values. by rewrite length_map.
Qed.

Lemma rate_and_mean_within_bounds_witness :
  exists m st' rate mean,
    calculate_additional_metrics 1%positive (only 1%positive joined_sample)
    = Ok (m, st')
    /\ m !! "taxa_aprovacao" = Some (MNum rate)
    /\ (0 <= rate)%Q /\ (rate <= 100)%Q
    /\ m !! "media_pedidos_por_aluno" = Some (MNum mean)
    /\ (1 <= mean)%Q.
Proof.
  apply (rate_and_mean_within_bounds (only 1%positive joined_sample)
           1%positive joined_sample eq_refl
           (check_joined_table_sound joined_sample eq_refl) eq_refl
           eq_refl).
Defined.

Global Instance count_ge_trans : Transitive count_ge.
Proof. intros a b c. unfold count_ge. lia. Qed.

Global Instance count_ge_total : Total count_ge.
Proof. intros a b. unfold count_ge. lia. Qed.

Lemma occurrences_present (x : cell) (l : list cell) :
  isna x = false ->
  occurrences x (List.filter (fun c => negb (isna c)) l) = occurrences x l.
Proof.
  intros Hx. unfold occurrences. f_equal.
  induction l as [|y l IH]; simpl; [done |].
  destruct (isna y) eqn:Hy; simpl.
  - rewrite bool_decide_eq_false_2; [done |]. intros ->. congruence.
  - by rewrite IH.
Qed.

(** The entries of [value_counts], missing values left out. *)
Lemma value_counts_entries (l : list cell) (x : cell) (n : nat) :
  In (x, n) (value_counts l)
  <-> In x l /\ isna x = false /\ n = occurrences x l.
Proof.
  rewrite <- list_elem_of_In, value_counts_Permutation.
  rewrite list_elem_of_In, in_map_iff. split.
  - intros (y & Heq & Hy). injection Heq as Hy1 Hy2. subst y n.
    apply unique_In, filter_In in Hy as [Hy Hna].
    apply negb_true_iff in Hna. by rewrite occurrences_present.
  - intros (Hx & Hna & ->). exists x.
    rewrite occurrences_present by done. split; [done |].
    apply unique_In, filter_In. split; [done |]. by rewrite Hna.
Qed.

(** X6. The top courses.  On every joined frame with rows and with a
    text in its decision column the Metrics Calculator returns and
    stores at most five courses, each a course that occurs in
    the frame with its number of rows, no course twice, the counts
    never increasing down the list; and a course of the frame that is
    not in the list has no more rows than any course in the list (and
    then the list is full). *)
Theorem top_courses_are_the_most_frequent
    (st : state) (l : loc) (d : DataFrame) :
  frames st !! l = Some d -> joined_table d -> empty d = false ->
  has_text "parecer_historico" d = true ->
  exists ic m st' top,
    get_loc "disciplina_historico" (columns d) = Ok ic
    /\ calculate_additional_metrics l st = Ok (m, st')
    /\ m !! "top_disciplinas" = Some (MSeries top)
    /\ (length top <= 5)%nat
    /\ StronglySorted count_ge top
    /\ NoDup (map fst top)
    /\ (forall x n, In (x, n) top ->
                    In x (column_values ic d) /\ isna x = false
                    /\ n = occurrences x (column_values ic d))
    /\ (forall x, In x (column_values ic d) -> isna x = false ->
                  ~ In x (map fst top) ->
                  length top = 5%nat
                  /\ forall e, In e top ->
                               (occurrences x (column_values ic d) <= snd e)%nat).
Proof.
  intros Hl Hj Hne Ht.
  destruct (metrics_run_joined_locs st l d Hl Hj Hne Ht)
    as (ip & ik & ic & m & st' & Hip & Hik & Hic & Hn & Hrun & Hm).
  destruct (first_metrics_lookups m ip ik ic d Hm) as (_ & _ & Htop).
  set (vc := value_counts (column_values ic d)) in *.
  assert (Hsorted : StronglySorted count_ge (take 5 vc ++ drop 5 vc)).
  { rewrite take_drop. apply StronglySorted_merge_sort; apply _. }
  exists ic, m, st', (take 5 vc). split; [done |]. split; [done |].
  split; [done |].
  split; [rewrite length_take; lia |].
  split; [by apply StronglySorted_app_1_l in Hsorted |].
  split.
  { change (map fst (take 5 vc)) with (fst <$> take 5 vc).
    rewrite fmap_take.
    eapply sublist_NoDup; [apply value_counts_labels_NoDup |].
    apply sublist_take. }
  split.
  { intros x n Hin. apply value_counts_entries. fold vc.
    rewrite <- (take_drop 5 vc). apply in_or_app. by left. }
  intros x Hx Hna Hout.
  assert (Hin : In (x, occurrences x (column_values ic d)) vc).
  { by apply value_counts_entries. }
  rewrite <- (take_drop 5 vc) in Hin. apply in_app_or in Hin as [Hin | Hin].
  { exfalso. apply Hout. apply in_map_iff. by exists (x, occurrences x (column_values ic d)). }
  split.
  - rewrite length_take. assert (drop 5 vc <> []) by (by destruct (drop 5 vc)).
    assert (length (drop 5 vc) <> 0)%nat by (by destruct (drop 5 vc)).
    rewrite length_drop in *. lia.
  - intros e He.
    apply (StronglySorted_app_1_elem_of _ _ _ e
             (x, occurrences x (column_values ic d)) Hsorted);
      by apply list_elem_of_In.
Qed.

Lemma top_courses_are_the_most_frequent_witness :
  exists m st' top,
    calculate_additional_metrics 1%positive (only 1%positive joined_sample)
    = Ok (m, st')
    /\ m !! "top_disciplinas" = Some (MSeries top)
    /\ (length top <= 5)%nat
    /\ StronglySorted count_ge top.
Proof.
  destruct (top_courses_are_the_most_frequent
              (only 1%positive joined_sample) 1%positive joined_sample
              eq_refl (check_joined_table_sound joined_sample eq_refl)
              eq_refl eq_refl)
    as (ic & m & st' & top & _ & Hrun & Hm & Hlen & Hsorted & _).
  by exists m, st', top.
Defined.

Lemma sum_list_Permutation (l k : list nat) :
  l ≡ₚ k -> sum_list l = sum_list k.
Proof. induction 1; simpl; lia. Qed.

Lemma sum_list_indicator (y : cell) (u : list cell) :
  NoDup u -> In y u ->
  sum_list (map (fun x => if bool_decide (y = x) then 1 else 0)%nat u) = 1%nat.
Proof.
  induction 1 as [|x u Hx Hnd IH]; [done |]. simpl. intros [-> | Hy].
  - rewrite bool_decide_eq_true_2 by done.
    assert (sum_list (map (fun x => if bool_decide (y = x) then 1 else 0)%nat u)
            = 0%nat) as ->; [| done].
    clear IH Hnd. induction u as [|z u IHu]; [done |]. simpl.
    rewrite bool_decide_eq_false_2.
    + apply IHu. intros H. apply Hx. by right.
    + intros ->. apply Hx. by left.
  - rewrite bool_decide_eq_false_2; [by rewrite IH |].
    intros ->. by apply Hx, list_elem_of_In.
Qed.

(** Counting every value once gives the number of values. *)
Lemma sum_occurrences (u l : list cell) :
  NoDup u -> (forall x, In x l -> In x u) ->
  sum_list (map (fun x => occurrences x l) u) = length l.
Proof.
  intros Hnd. induction l as [|y l IH]; intros Hsub.
  - clear. induction u as [|x u IHu]; [done |]. simpl. apply IHu.
  - assert (Hsplit :
      sum_list (map (fun x => occurrences x (y :: l)) u)
      = (sum_list (map (fun x => if bool_decide (y = x) then 1 else 0)%nat u)
         + sum_list (map (fun x => occurrences x l) u))%nat).
    { clear. induction u as [|x u IHu]; [done |]. simpl. rewrite IHu.
      unfold occurrences at 1. simpl. case_bool_decide; simpl;
        unfold occurrences; lia. }
    rewrite Hsplit, sum_list_indicator, IH; [done | | done |].
    + intros x Hx. apply Hsub. by right.
    + apply Hsub. by left.
Qed.

(** X7. The temporal distribution counts every row once: on a joined
    frame with rows, with a text in its decision column and with the
    year and term columns, the call returns and the counts of the
    distribution add up to the number of rows of the frame. *)
Theorem temporal_distribution_counts_every_row
    (st : state) (l : loc) (d : DataFrame) (ia ib : nat) :
  frames st !! l = Some d -> joined_table d -> empty d = false ->
  has_text "parecer_historico" d = true ->
  get_loc "Ano_historico" (columns d) = Ok ia ->
  get_loc "Semestre_historico" (columns d) = Ok ib ->
  exists m st' dist,
    calculate_additional_metrics l st = Ok (m, st')
    /\ m !! "distribuicao_temporal" = Some (MSeries dist)
    /\ sum_list (map snd dist) = len d.
Proof.
  intros Hl Hj Hne Ht Hia Hib.
  destruct (joined_table_locs d Hj Hne) as (ip & ik & ic & Hip & Hik & Hic & Hn).
  pose proof (metrics_run_with_period st l d ip ik ic Hl Hne Hip
                (has_text_at _ _ _ Ht Hip) Hik Hic Hn
                ia ib (joined_labels d Hj) (joined_rows d Hj) Hia Hib) as Hrun.
  eexists _, _, _. split; [exact Hrun |].
  split; [by rewrite lookup_insert_eq |].
  set (p := periodo_column ia ib d).
  assert (Hpresent : List.filter (fun c => negb (isna c)) p = p).
  { apply filter_all. eapply Forall_impl; [apply periodo_column_texts |].
    by intros c [q ->]. }
  rewrite (sum_list_Permutation _ (map snd (value_counts p))).
  2:{ apply (fmap_Permutation snd), merge_sort_Permutation. }
  rewrite (sum_list_Permutation _
             (map snd (map (fun x => (x, occurrences x p)) (unique p)))).
  2:{ apply (fmap_Permutation snd).
      rewrite value_counts_Permutation. by rewrite Hpresent. }
  rewrite map_map. simpl. rewrite sum_occurrences.
  - unfold p. apply periodo_column_length.
  - apply unique_go_NoDup.
  - intros x Hx. by apply unique_In.
Qed.

Lemma temporal_distribution_counts_every_row_witness :
  exists m st' dist,
    calculate_additional_metrics 1%positive (only 1%positive joined_sample)
    = Ok (m, st')
    /\ m !! "distribuicao_temporal" = Some (MSeries dist)
    /\ sum_list (map snd dist) = 5%nat.
Proof.
  apply (temporal_distribution_counts_every_row
           (only 1%positive joined_sample) 1%positive joined_sample
           3%nat 4%nat eq_refl
           (check_joined_table_sound joined_sample eq_refl) eq_refl
           eq_refl eq_refl eq_refl).
Defined.

(** ** Badges and cards *)

Lemma pretty_N_char_numeral (x : N) : (Str.code (pretty_N_char x) < 58)%nat.
Proof. unfold pretty_N_char. repeat case_match; vm_compute; lia. Qed.

Lemma pretty_N_go_numeral (x : N) (s : string) :
  numeral s -> numeral (pretty_N_go x s).
Proof.
  revert s. induction (N.lt_wf_0 x) as [x _ IH]; intros s Hs.
  assert (x = 0 \/ 0 < x)%N as [->|Hx] by lia.
  - by rewrite pretty_N_go_0.
  - rewrite pretty_N_go_step by done. apply IH.
    + by apply N.div_lt.
    + split; [apply pretty_N_char_numeral | exact Hs].
Qed.

(** [str] of an integer is a numeral. *)
Lemma pretty_Z_numeral (z : Z) : numeral (pretty z).
Proof.
  destruct z as [|p|p]; unfold pretty, pretty_Z.
  - simpl. split; [vm_compute; lia | exact I].
  - unfold pretty, pretty_positive, pretty, pretty_N.
    destruct (decide (N.pos p = 0%N)); [lia |].
    by apply pretty_N_go_numeral.
  - unfold pretty, pretty_positive, pretty, pretty_N.
    destruct (decide (N.pos p = 0%N)); [lia |].
    change ("-" +:+ pretty_N_go (N.pos p) "")
      with (String "-" (pretty_N_go (N.pos p) "")).
    split; [vm_compute; lia |]. by apply pretty_N_go_numeral.
Qed.

Lemma numeral_lower (s : string) : numeral s -> Str.lower s = s.
Proof.
  induction s as [|c s IH]; intros Hs; [reflexivity |].
  destruct Hs as [Hc Hs]. simpl.
  destruct (Str.code c =? 195)%nat eqn:E.
  { apply Nat.eqb_eq in E. lia. }
  unfold Str.lower_ascii.
  destruct (65 <=? Str.code c)%nat eqn:E1.
  { apply Nat.leb_le in E1. lia. }
  cbn [andb]. by rewrite IH.
Qed.


(** A numeral contains no text that starts with a letter. *)
Lemma numeral_no_letter (a : ascii) (sub s : string) :
  (58 <= Str.code a)%nat -> numeral s ->
  Str.contains (String a sub) s = false.
Proof.
  intros Ha. induction s as [|c s IH]; intros Hs; [reflexivity |].
  destruct Hs as [Hc Hs]. simpl.
  rewrite (IH Hs), orb_false_r.
  destruct (Ascii.ascii_dec a c) as [->|Hne]; [lia |].
  by destruct (Ascii.eqb_spec a c).
Qed.




Lemma sum_true_map_filter {A} (p : A -> bool) (l : list A) :
  sum_true (map p l) = length (List.filter p l).
Proof.
  unfold sum_true. induction l as [|x l IH]; simpl; [done |].
  destruct (p x); simpl; by rewrite IH.
Qed.



Lemma prefix_sapp (b s : string) : String.prefix b (b +:+ s) = true.
Proof.
  induction b as [|a b IH]; [by destruct s |].
  rewrite sapp_cons. simpl. by destruct (ascii_dec a a).
Qed.

Lemma prefix_cons (a c : ascii) (b s : string) :
  String.prefix (String a b) (String c s)
  = Ascii.eqb a c && String.prefix b s.
Proof.
  simpl. destruct (ascii_dec a c) as [->|Hne].
  - by rewrite Ascii.eqb_refl.
  - by destruct (Ascii.eqb_spec a c).
Qed.

(** Telling two badges apart by their first bytes. *)
Ltac badges :=
  unfold badge_aprovado, badge_negado, badge_sem_parecer, badge_pendente;
  rewrite ?prefix_sapp, ?sapp_cons, ?prefix_cons; reflexivity.

Lemma parecer_badge_aprovado (c : cell) :
  parecer_badge badge_aprovado c = deferido c.
Proof.
  unfold parecer_badge, deferido, format_parecer.
  destruct c as [z|s| |b];
    cbn [isna astype_str str_lower str_contains existsb].
  - rewrite (numeral_lower _ (pretty_Z_numeral z)).
    rewrite (numeral_no_letter "a" "provado" _ ltac:(vm_compute; lia)
               (pretty_Z_numeral z)).
    rewrite (numeral_no_letter "n" "egado" _ ltac:(vm_compute; lia)
               (pretty_Z_numeral z)).
    rewrite (numeral_no_letter "i" "ndeferido" _ ltac:(vm_compute; lia)
               (pretty_Z_numeral z)).
    badges.
  - rewrite orb_false_r.
    destruct (Str.contains "aprovado" (Str.lower s)); [badges |].
    destruct (Str.contains "negado" (Str.lower s)
              || Str.contains "indeferido" (Str.lower s)); badges.
  - badges.
  - destruct b; by vm_compute.
Qed.

Lemma parecer_badge_negado (c : cell) :
  parecer_badge badge_negado c = indeferido c && negb (deferido c).
Proof.
  unfold parecer_badge, deferido, indeferido, format_parecer.
  destruct c as [z|s| |b];
    cbn [isna astype_str str_lower str_contains existsb].
  - rewrite (numeral_lower _ (pretty_Z_numeral z)).
    rewrite (numeral_no_letter "a" "provado" _ ltac:(vm_compute; lia)
               (pretty_Z_numeral z)).
    rewrite (numeral_no_letter "n" "egado" _ ltac:(vm_compute; lia)
               (pretty_Z_numeral z)).
    rewrite (numeral_no_letter "i" "ndeferido" _ ltac:(vm_compute; lia)
               (pretty_Z_numeral z)).
    badges.
  - rewrite !orb_false_r.
    destruct (Str.contains "aprovado" (Str.lower s)).
    { rewrite andb_false_r. badges. }
    destruct (Str.contains "negado" (Str.lower s)
              || Str.contains "indeferido" (Str.lower s)); badges.
  - badges.
  - destruct b; by vm_compute.
Qed.

Lemma filter_split_length {A} (p q : A -> bool) (l : list A) :
  (length (List.filter (fun x => p x && negb (q x)) l)
   + length (List.filter (fun x => q x && p x) l)
   = length (List.filter p l))%nat.
Proof.
  induction l as [|x l IH]; simpl; [done |].
  destruct (p x), (q x); simpl; lia.
Qed.

(** X9. The badges of the per-student view agree with the counts of the
    Metrics Calculator, except that a badge classifies a decision once:
    for every column of decisions, the rows that get the check-mark badge
    are the rows of the table of granted requests and their number is the
    count [aprovados]; the rows that get the cross badge, together with
    the rows that match both patterns (and get the check mark), make up
    the count [negados].  So check marks plus crosses fall short of
    [aprovados + negados] by the number of decisions matching both. *)
Theorem decision_badges_agree_with_the_counts (col : list cell) :
  let pareceres := map str_lower col in
  List.filter (parecer_badge badge_aprovado) col = List.filter deferido col
  /\ length (List.filter (parecer_badge badge_aprovado) col)
     = count_aprovados pareceres
  /\ (length (List.filter (parecer_badge badge_negado) col)
      + length (List.filter (fun c => deferido c && indeferido c) col)
      = count_negados pareceres)%nat.
Proof.
  intros pareceres.
  assert (Ha : List.filter (parecer_badge badge_aprovado) col
               = List.filter deferido col).
  { apply List.filter_ext. exact parecer_badge_aprovado. }
  split; [exact Ha |]. unfold pareceres, count_aprovados, count_negados.
  rewrite !map_map, !sum_true_map_filter. split.
  - by rewrite Ha.
  - rewrite (List.filter_ext _ _ parecer_badge_negado).
    apply (filter_split_length indeferido deferido).
Qed.

(** ** The headline cards *)

Lemma merge_inner_key_position (cur hist j : DataFrame) (li ri : nat) :
  NoDup (columns cur) -> NoDup (columns hist) ->
  key_loc "nusp" (columns cur) = Ok li ->
  key_loc "nusp" (columns hist) = Ok ri ->
  merge_inner cur hist "nusp" = Ok j ->
  NoDup (columns j)
  /\ get_loc "nusp" (columns j) = Ok li
  /\ rows j = join_rows li ri (rows cur) (rows hist).
Proof.
  intros Hndl Hndr Hli Hri Hj. unfold merge_inner in Hj.
  rewrite Hli, Hri in Hj.
  destruct (suffix_clashes (columns cur) (delete ri (columns hist)))
    eqn:Hs; [| done].
  injection Hj as <-. cbn [columns rows].
  apply key_loc_index_of in Hli, Hri.
  pose proof (index_of_lookup _ _ _ Hli) as Hlk.
  pose proof (index_of_lookup _ _ _ Hri) as Hrk.
  set (lcols := columns cur) in *.
  set (rcols := delete ri (columns hist)) in *.
  assert (Hndr' : NoDup rcols).
  { apply (sublist_NoDup _ _ Hndr (sublist_delete (columns hist) ri)). }
  assert (Hkr : Str.mem "nusp" rcols = false).
  { apply mem_false. by apply delete_removes_unique. }
  assert (Hkl : Str.mem "nusp" lcols = true).
  { apply mem_true. eapply list_elem_of_In, list_elem_of_lookup_2, Hlk. }
  pose proof (suffix_clashes_NoDup lcols rcols Hndl Hndr' Hs) as Hnd.
  set (cols := _ ++ _) in *.
  assert (Hat : cols !! li = Some "nusp").
  { unfold cols. rewrite lookup_app_l.
    - rewrite list_lookup_fmap, Hlk. simpl. by rewrite Hkl, Hkr.
    - rewrite length_map. by eapply lookup_lt_Some. }
  split; [exact Hnd |]. split; [| done].
  destruct (get_loc_NoDup "nusp" cols Hnd) as (i & Hi & Hlook).
  { eapply list_elem_of_In, list_elem_of_lookup_2, Hat. }
  by rewrite (NoDup_lookup _ _ _ _ Hnd Hat Hlook).
Qed.

Lemma nunique_incl (l1 l2 : list cell) :
  (forall x, In x l1 -> In x l2) -> (nunique l1 <= nunique l2)%nat.
Proof.
  intros Hincl. unfold nunique. apply submseteq_length, NoDup_submseteq.
  - apply unique_go_NoDup.
  - intros x Hx. apply list_elem_of_In. apply list_elem_of_In in Hx.
    apply unique_In, filter_In in Hx as [Hx Hna].
    apply unique_In, filter_In. split; [by apply Hincl | done].
Qed.

Lemma has_text_loc (name : string) (d : DataFrame) :
  has_text name d = true ->
  exists i, get_loc name (columns d) = Ok i
            /\ existsb is_text (column_values i d) = true.
Proof.
  unfold has_text, get_column.
  destruct (get_loc name (columns d)) as [i|e]; [| done]. eauto.
Qed.

Lemma count_problem_disjoint (problemas : list cell) :
  existsb is_text problemas = true ->
  exists qr ch,
    count_problem "QR" problemas = Ok qr
    /\ count_problem "CH" problemas = Ok ch
    /\ (qr + ch <= length problemas)%nat.
Proof.
  intros Ht. unfold count_problem. rewrite (str_accessor_text _ Ht).
  eexists _, _. split; [done |]. split; [done |]. clear Ht.
  rewrite !sum_true_map_filter.
  induction problemas as [|c l IH]; simpl; [done |].
  destruct (decide (str_upper c = VStr "QR")) as [E|E];
    destruct (decide (str_upper c = VStr "CH")) as [E'|E'].
  - rewrite E in E'. discriminate.
  - rewrite (bool_decide_eq_true_2 _ E), (bool_decide_eq_false_2 _ E').
    simpl. lia.
  - rewrite (bool_decide_eq_false_2 _ E), (bool_decide_eq_true_2 _ E').
    simpl. lia.
  - rewrite (bool_decide_eq_false_2 _ E), (bool_decide_eq_false_2 _ E').
    simpl. lia.
Qed.

Lemma percentual_historico_bounds (a t : nat) :
  (a <= t)%nat ->
  (0 <= percentual_historico a t)%Q /\ (percentual_historico a t <= 100)%Q.
Proof.
  intros Hat. unfold percentual_historico.
  destruct t as [|t]; simpl Nat.ltb; cbv iota.
  - split; unfold Qle; simpl; lia.
  - apply percent_bounds; lia.
Qed.

(** X10. The headline cards of a merge.  With the current list and its
    merge with the history in the store (distinct labels in both inputs,
    full rows in the current list, a text among the problem codes of the
    merge), the cards are computed without an exception and without a
    change to the store, and: the students with history are no more than
    the requests of the term; their share lies between 0 and 100; and the
    two problem counts together do not exceed the rows of the merge. *)
Theorem headline_cards_within_bounds
    (st : state) (lr lj : loc) (cur hist j : DataFrame) (li ri : nat)
    (metrics : gmap string metric) :
  frames st !! lr = Some cur ->
  frames st !! lj = Some j ->
  NoDup (columns cur) -> NoDup (columns hist) ->
  rectangular cur ->
  key_loc "nusp" (columns cur) = Ok li ->
  key_loc "nusp" (columns hist) = Ok ri ->
  merge_inner cur hist "nusp" = Ok j ->
  has_text "problema_historico" j = true ->
  exists c,
    headline_cards lr lj metrics st = Ok (c, st)
    /\ total_requerimentos c = len cur
    /\ (alunos_unicos_historico c <= total_requerimentos c)%nat
    /\ (0 <= percentual c)%Q /\ (percentual c <= 100)%Q
    /\ (total_qr c + total_ch c <= len j)%nat.
Proof.
  intros Hlr Hlj Hndl Hndr Hrect Hli Hri Hj Hp.
  destruct (merge_inner_key_position cur hist j li ri Hndl Hndr Hli Hri Hj)
    as (Hnd & Hk & Hrows).
  destruct (has_text_loc _ _ Hp) as (pi & Hpi & Htext).
  destruct (count_problem_disjoint (map (cell_at pi) (rows j)) Htext)
    as (qr & ch & Hqr & Hch & Hsum).
  assert (Hkc : get_loc "nusp" (columns cur) = Ok li).
  { unfold get_loc. unfold key_loc in Hli.
    destruct (index_of "nusp" (columns cur)); [| done].
    case_decide; [done | done]. }
  eexists. split.
  { unfold headline_cards.
    rewrite (bind_run _ _ _ _ _ (deref_run _ _ _ Hlr)).
    rewrite (bind_run _ _ _ _ _
               (getitem_run _ _ _ _ _ Hlj (get_column_at _ _ _ Hk))).
    rewrite (bind_run _ _ _ _ _
               (getitem_run _ _ _ _ _ Hlr (get_column_at _ _ _ Hkc))).
    rewrite (bind_run _ _ _ _ _
               (getitem_run _ _ _ _ _ Hlj (get_column_at _ _ _ Hpi))).
    rewrite (bind_run _ _ _ _ _ (lift_run _ _ _ Hqr)).
    rewrite (bind_run _ _ _ _ _
               (getitem_run _ _ _ _ _ Hlj (get_column_at _ _ _ Hpi))).
    rewrite (bind_run _ _ _ _ _ (lift_run _ _ _ Hch)).
    reflexivity. }
  cbn [total_requerimentos alunos_unicos_historico percentual total_qr
       total_ch].
  assert (Hle : (nunique (map (cell_at li) (rows j))
                 <= nunique (map (cell_at li) (rows cur)))%nat).
  { apply nunique_incl. intros x Hx.
    apply in_map_iff in Hx as (r & <- & Hr). rewrite Hrows in Hr.
    apply join_rows_In in Hr as (lr' & rr & Hlr' & _ & _ & ->).
    rewrite cell_at_app_l.
    - apply in_map_iff. by exists lr'.
    - assert (Hlong : Forall (fun r => (li < length r)%nat) (rows cur)).
      { eapply rectangular_lt; [done |].
        by apply index_of_lookup, key_loc_index_of. }
      rewrite List.Forall_forall in Hlong. by apply Hlong. }
  split; [done |]. split.
  { etransitivity; [exact Hle |].
    etransitivity; [apply nunique_le_length |].
    by rewrite length_map. }
  split; [by apply percentual_historico_bounds |].
  split; [by apply percentual_historico_bounds |].
  etransitivity; [exact Hsum |].
  by rewrite length_map.
Qed.

Lemma headline_cards_within_bounds_witness :
  exists j,
    merge_inner cards_requerimentos cards_consolidado "nusp" = Ok j
    /\ exists c,
         headline_cards 2%positive 3%positive ∅ (cards_store j)
         = Ok (c, cards_store j)
         /\ total_requerimentos c = len cards_requerimentos
         /\ (alunos_unicos_historico c <= total_requerimentos c)%nat
         /\ (0 <= percentual c)%Q /\ (percentual c <= 100)%Q
         /\ (total_qr c + total_ch c <= len j)%nat.
Proof.
  destruct (merge_inner cards_requerimentos cards_consolidado "nusp")
    as [j|e] eqn:Hj; [| discriminate].
  exists j. split; [reflexivity |].
  apply (headline_cards_within_bounds (cards_store j) 2%positive 3%positive
           cards_requerimentos cards_consolidado j 0%nat 0%nat ∅).
  - reflexivity.
  - reflexivity.
  - apply (bool_decide_unpack _). by vm_compute.
  - apply (bool_decide_unpack _). by vm_compute.
  - repeat constructor.
  - reflexivity.
  - reflexivity.
  - exact Hj.
  - injection Hj as <-. reflexivity.
Defined.

(** ** The password gate *)

Lemma script_spec (p : page) (session : gmap string bool) :
  exists session',
    script p session = (logged_in session, session')
    /\ logged_in session' = logged_in session || opens p.
Proof.
  unfold script, check_password, logged_in, opens.
  destruct (session !! "password_correct") as [b|] eqn:Hs.
  - rewrite Hs. simpl. destruct b.
    + eexists. split; [reflexivity |]. by rewrite Hs.
    + destruct (correct_password (senha_mestra p)) as [s|e].
      * destruct (submitted p); simpl.
        -- destruct (String.eqb (password p) s).
           ++ eexists. split; [reflexivity |]. by simplify_map_eq.
           ++ eexists. split; [reflexivity |]. by rewrite Hs.
        -- eexists. split; [reflexivity |]. by rewrite Hs.
      * eexists. split; [reflexivity |]. by rewrite Hs.
  - rewrite lookup_insert_eq. simpl.
    destruct (correct_password (senha_mestra p)) as [s|e].
    + destruct (submitted p); simpl.
      * destruct (String.eqb (password p) s).
        -- eexists. split; [reflexivity |]. by simplify_map_eq.
        -- eexists. split; [reflexivity |]. by simplify_map_eq.
      * eexists. split; [reflexivity |]. by simplify_map_eq.
    + eexists. split; [reflexivity |]. by simplify_map_eq.
Qed.

Lemma browse_spec (ps : list page) (session : gmap string bool) (k : nat) :
  browse ps session !! k = Some true
  <-> (k < length ps)%nat
      /\ (logged_in session = true
          \/ exists i p, (i < k)%nat /\ ps !! i = Some p /\ opens p = true).
Proof.
  revert session k. induction ps as [|p ps IH]; intros session k.
  { simpl. split; [done | intros [H _]; lia]. }
  simpl. destruct (script_spec p session) as (session' & Hrun & Hflag).
  rewrite Hrun. destruct k as [|k]; simpl.
  - split.
    + intros [= ->]. split; [lia | by left].
    + intros [_ [-> | (i & q & Hi & _)]]; [done | lia].
  - rewrite IH, Hflag. split.
    + intros [Hk H]. split; [lia |].
      destruct H as [H | (i & q & Hi & Hq & Ho)].
      * apply orb_true_iff in H as [H | H]; [by left | right].
        exists 0%nat, p. split; [lia | done].
      * right. exists (S i), q. split; [lia | done].
    + intros [Hk H]. split; [lia |].
      destruct H as [H | (i & q & Hi & Hq & Ho)].
      * left. by rewrite H.
      * destruct i as [|i]; simpl in Hq.
        -- injection Hq as <-. left. rewrite Ho. by rewrite orb_true_r.
        -- right. exists i, q. split; [lia | done].
Qed.

(** X11. The password gate.  In a browser session that starts without the
    flag, whatever is typed and clicked and whatever the secrets hold,
    [run_app] is entered in a run exactly when an earlier run of the
    session submitted the expected password (the configured one, or
    [admin] when the entry is missing): never before such a run, not in
    that run itself (it ends with [st.rerun()]), and in every run after
    it. *)
Theorem gate_opens_after_the_password
    (ps : list page) (session : gmap string bool) (k : nat) :
  session !! "password_correct" <> Some true ->
  (browse ps session !! k = Some true
   <-> (k < length ps)%nat
       /\ exists i p, (i < k)%nat /\ ps !! i = Some p /\ opens p = true).
Proof.
  intros Hfresh. rewrite browse_spec.
  assert (Hout : logged_in session = false).
  { unfold logged_in. destruct (session !! "password_correct") as [[|]|];
      [done | done | done]. }
  rewrite Hout. split.
  - intros [Hk [H | H]]; [done | by split].
  - intros [Hk H]. split; [done | by right].
Qed.

Lemma gate_opens_after_the_password_witness :
  browse [mkPage (Raise (KeyError "passwords")) "1234" true;
          mkPage (Raise (KeyError "passwords")) "admin" true;
          mkPage (Raise (KeyError "passwords")) "" false] ∅ !! 2%nat
  = Some true.
Proof.
  apply (gate_opens_after_the_password _ ∅ 2%nat).
  - by rewrite lookup_empty.
  - split; [simpl; lia |].
    exists 1%nat, (mkPage (Raise (KeyError "passwords")) "admin" true).
    split; [lia |]. split; reflexivity.
Defined.

(** ** The renaming step of [run_app] *)

Lemma validate_ok_columns (st st' : state) (lc lr : loc) (dc dr : DataFrame) :
  frames st !! lc = Some dc -> frames st !! lr = Some dr ->
  validate_dataframes lc lr st = Ok (tt, st') ->
  (forall c, In c ("nusp" :: renamed_consolidado_cols) -> In c (columns dc))
  /\ (forall c, In c ["nusp"; "Nome completo"] -> In c (columns dr)).
Proof.
  intros Hc Hr. unfold validate_dataframes.
  rewrite (bind_run _ _ _ _ _ (deref_run _ _ _ Hc)).
  rewrite (bind_run _ _ _ _ _ (deref_run _ _ _ Hr)).
  rewrite <- !missing_from_nil.
  change (["nusp"] ++ renamed_consolidado_cols)
    with ("nusp" :: renamed_consolidado_cols).
  destruct (missing_from ("nusp" :: renamed_consolidado_cols) (columns dc))
    as [|m ms];
    destruct (missing_from ["nusp"; "Nome completo"] (columns dr))
      as [|m' ms']; simpl; done.
Qed.

Lemma count_occ_map_two {A B} (eqB : forall x y : B, {x = y} + {x <> y})
    (f : A -> B) (l : list A) (a b : A) (y : B) :
  In a l -> In b l -> a <> b -> f a = y -> f b = y ->
  (2 <= count_occ eqB (map f l) y)%nat.
Proof.
  intros Ha Hb Hne Hfa Hfb.
  assert (Hone : forall x l', In x l' -> f x = y ->
                              (1 <= count_occ eqB (map f l') y)%nat).
  { intros x l' Hx Hfx. apply (count_occ_In eqB).
    apply in_map_iff. by exists x. }
  induction l as [|c l IH]; [done |]. simpl.
  destruct Ha as [-> | Ha]; destruct Hb as [-> | Hb].
  - done.
  - destruct (eqB (f a) y); [| done].
    pose proof (Hone b l Hb Hfb). lia.
  - destruct (eqB (f b) y); [| done].
    pose proof (Hone a l Ha Hfa). lia.
  - specialize (IH Ha Hb). destruct (eqB (f c) y); lia.
Qed.

(** X12. The renaming step after validation.  On a history that the
    Schema Validator has accepted, renaming the five plain labels to
    their suffixed forms never supplies a label that was missing: when
    the history holds none of the plain labels the step leaves the frame
    as it is, and when it holds one of them the step gives that column
    the label of the suffixed column that is already there, so the
    suffixed label occurs at least twice afterwards. *)
Theorem rename_after_validation_adds_no_label
    (st st' : state) (lc lr : loc) (dc dr : DataFrame) :
  frames st !! lc = Some dc -> frames st !! lr = Some dr ->
  validate_dataframes lc lr st = Ok (tt, st') ->
  ((forall p, In p (map fst cols_to_rename) -> ~ In p (columns dc)) ->
   rename cols_to_rename dc = dc)
  /\ (forall p, In p (map fst cols_to_rename) -> In p (columns dc) ->
        (2 <= count_occ string_dec (columns (rename cols_to_rename dc))
                (p +:+ "_historico"))%nat).
Proof.
  intros Hc Hr Hv.
  destruct (validate_ok_columns st st' lc lr dc dr Hc Hr Hv) as [Hall _].
  split.
  - intros Hnone. destruct dc as [cols rws]. unfold rename. f_equal.
    cbn [columns] in *. clear Hall Hc Hv.
    induction cols as [|c cols IH]; [done |]. cbn [map]. f_equal.
    + destruct (List.find _ cols_to_rename) as [kv|] eqn:Hf; [| done].
      apply find_some in Hf as [Hin Heq]. apply String.eqb_eq in Heq.
      exfalso. apply (Hnone (fst kv)).
      * apply in_map_iff. by exists kv.
      * rewrite Heq. by left.
    + apply IH. intros p Hp Hin. apply (Hnone p Hp). by right.
  - intros p Hp Hin. unfold rename. cbn [columns].
    apply (count_occ_map_two string_dec _ _ p (p +:+ "_historico"));
      [done | | | |].
    + apply Hall. right. simpl in Hp. unfold renamed_consolidado_cols.
      simpl. intuition (subst; simpl; tauto).
    + intros E. apply (f_equal String.length) in E.
      rewrite slength_app in E. simpl in E. lia.
    + simpl in Hp. intuition (subst; reflexivity).
    + simpl in Hp. intuition (subst; reflexivity).
Qed.

Lemma rename_after_validation_adds_no_label_witness :
  rename cols_to_rename dirty_consolidado = dirty_consolidado.
Proof.
  apply (rename_after_validation_adds_no_label
           (uploads dirty_consolidado dirty_requerimentos)
           (uploads dirty_consolidado dirty_requerimentos)
           1%positive 2%positive dirty_consolidado dirty_requerimentos
           eq_refl eq_refl eq_refl).
  intros p Hp Hin. simpl in Hp, Hin.
  repeat (destruct Hp as [<- | Hp];
          [repeat (destruct Hin as [Hin | Hin]; [discriminate |]);
           destruct Hin |]).
  destruct Hp.
Defined.

(** ** A whole run, in general *)














